(** * Odoo companion: the JSON-RPC service client and the incremental search loop

    A shallow embedding of [services/odoo.ts] (class [OdooService]) and of the
    debounced search effect of the search views ([search-projects.tsx],
    [search-helpdesk.tsx] and their inline predecessors).

    - JavaScript values are the [json] type; [undefined] is [None].
    - An [async] method is a tree of effects ([Prog]): reads and writes of
      [this.uid], toasts, console output, draws of [Math.random] and [fetch].
      [exec] runs such a tree against a backend, one call after the other;
      [Sched] runs several calls with their requests in flight together.
    - The search view is a timer machine over time-stamped text changes. *)

From Stdlib Require Import ZArith List String Ascii Bool Lia QArith Qround.
From Stdlib Require Import DecimalString DecimalPos DecimalZ.
Import ListNotations.
Local Open Scope string_scope.
Local Open Scope Z_scope.

(** ** JavaScript values *)

#[warnings="-register-all"]
Inductive json : Type :=
| JNull
| JBool (b : bool)
| JNum (n : Z)
| JStr (s : string)
| JArr (items : list json)
| JObj (props : list (string * json)).

(** [ToBoolean]: [null], [false], [0] and the empty string are falsy. *)
Definition truthy (v : json) : bool :=
  match v with
  | JNull => false
  | JBool b => b
  | JNum n => negb (n =? 0)
  | JStr s => negb (String.eqb s "")
  | JArr _ => true
  | JObj _ => true
  end.

(** [a || b] where [a] may be [undefined]. *)
Definition js_or (a : option json) (b : json) : json :=
  match a with
  | Some v => if truthy v then v else b
  | None => b
  end.

(** [a || b] on strings, [a] possibly [undefined]. *)
Definition str_or (a : option string) (b : string) : string :=
  match a with
  | Some s => if String.eqb s "" then b else s
  | None => b
  end.

(** Objects keep their keys in insertion order. *)
Definition JsObject := list (string * json).

Fixpoint obj_get (k : string) (o : JsObject) : option json :=
  match o with
  | [] => None
  | (k', v) :: rest => if String.eqb k k' then Some v else obj_get k rest
  end.

(** [{ ...o, k: v }]: an existing key keeps its place, a new one goes last. *)
Fixpoint obj_set (k : string) (v : json) (o : JsObject) : JsObject :=
  match o with
  | [] => [(k, v)]
  | (k', v') :: rest =>
      if String.eqb k k' then (k', v) :: rest else (k', v') :: obj_set k v rest
  end.

Definition string_of_Z (n : Z) : string := NilZero.string_of_int (Z.to_int n).

(** ** Configuration, wire format *)

Record Preferences := {
  odooUrl : string;
  apiKey : string;
  database : string;
  userLogin : string
}.

(** [s.replace(/\/$/, "")]: drops one slash at the very end. *)
Fixpoint strip_trailing_slash (s : string) : string :=
  match s with
  | EmptyString => EmptyString
  | String c EmptyString => if Ascii.eqb c "/" then EmptyString else s
  | String c rest => String c (strip_trailing_slash rest)
  end.

(** The body handed to [fetch], with the address it is posted to. *)
Record Request := {
  rq_url : string;
  rq_jsonrpc : string;
  rq_call : string;
  rq_service : string;
  rq_method : string;
  rq_args : list json;
  rq_id : Z
}.

Record ErrorData := { data_name : string; data_message : string }.

Record RpcError := { error_message : string; error_data : option ErrorData }.

(** [OdooResponse<T>]: [{ result?: T, error?: {...} }]. *)
Record Envelope := { result : option json; error : option RpcError }.

(** A response: its status and what [response.json()] gives, the decoded
    envelope or the message of the rejection. *)
Record HttpResponse := { status : Z; body : string + Envelope }.

Definition ok (r : HttpResponse) : bool := (200 <=? status r) && (status r <=? 299).

(** What awaiting [fetch] gives: a rejection (network failure) or a response. *)
Inductive FetchOutcome :=
| NetworkFailure (msg : string)
| Responded (r : HttpResponse).

(** What can be thrown: an [Error] with its message, or any other value. *)
Inductive Thrown :=
| ErrorObj (msg : string)
| OtherValue (v : json).

Inductive Outcome (A : Type) :=
| Returned (a : A)
| Threw (e : Thrown).
Arguments Returned {A} a.
Arguments Threw {A} e.

Inductive ToastStyle := Failure | Success | Animated.

Record Toast := { style : ToastStyle; title : string; message : string }.

(** ** Async methods as effect trees *)

Inductive Prog (A : Type) : Type :=
| Done (o : Outcome A)
| ReadUid (k : json -> Prog A)
| WriteUid (v : json) (k : Prog A)
| ShowToast (t : Toast) (k : Prog A)
| ConsoleError (label : string) (e : Thrown) (k : Prog A)
| MathRandom (k : Q -> Prog A)
| Fetch (rq : Request) (k : FetchOutcome -> Prog A).
Arguments Done {A} o.
Arguments ReadUid {A} k.
Arguments WriteUid {A} v k.
Arguments ShowToast {A} t k.
Arguments ConsoleError {A} label e k.
Arguments MathRandom {A} k.
Arguments Fetch {A} rq k.

Definition ret {A} (a : A) : Prog A := Done (Returned a).
Definition throw {A} (e : Thrown) : Prog A := Done (Threw e).

Fixpoint bind {A B} (p : Prog A) (f : A -> Prog B) : Prog B :=
  match p with
  | Done (Returned a) => f a
  | Done (Threw e) => Done (Threw e)
  | ReadUid k => ReadUid (fun v => bind (k v) f)
  | WriteUid v k => WriteUid v (bind k f)
  | ShowToast t k => ShowToast t (bind k f)
  | ConsoleError l e k => ConsoleError l e (bind k f)
  | MathRandom k => MathRandom (fun r => bind (k r) f)
  | Fetch rq k => Fetch rq (fun out => bind (k out) f)
  end.

(** [try { p } catch (error) { h error }] *)
Fixpoint try_catch {A} (p : Prog A) (h : Thrown -> Prog A) : Prog A :=
  match p with
  | Done (Returned a) => Done (Returned a)
  | Done (Threw e) => h e
  | ReadUid k => ReadUid (fun v => try_catch (k v) h)
  | WriteUid v k => WriteUid v (try_catch k h)
  | ShowToast t k => ShowToast t (try_catch k h)
  | ConsoleError l e k => ConsoleError l e (try_catch k h)
  | MathRandom k => MathRandom (fun r => try_catch (k r) h)
  | Fetch rq k => Fetch rq (fun out => try_catch (k out) h)
  end.

Declare Scope prog_scope.
Delimit Scope prog_scope with prog.
Notation "x <- c ;; k" := (bind c (fun x => k))
  (at level 61, c at next level, right associativity) : prog_scope.
Notation "c ;;; k" := (bind c (fun _ => k))
  (at level 61, right associativity) : prog_scope.
Local Open Scope prog_scope.

Definition readUid : Prog json := ReadUid ret.
Definition writeUid (v : json) : Prog unit := WriteUid v (ret tt).
Definition showToast (t : Toast) : Prog unit := ShowToast t (ret tt).
Definition console_error (label : string) (e : Thrown) : Prog unit :=
  ConsoleError label e (ret tt).
Definition math_random : Prog Q := MathRandom ret.

(** [await fetch(url, { method: "POST", ..., body })]: a rejection is thrown. *)
Definition fetch (rq : Request) : Prog HttpResponse :=
  Fetch rq (fun out =>
    match out with
    | NetworkFailure msg => throw (ErrorObj msg)
    | Responded r => ret r
    end).

(** [await response.json()] *)
Definition response_json (r : HttpResponse) : Prog Envelope :=
  match body r with
  | inl msg => throw (ErrorObj msg)
  | inr env => ret env
  end.

(** ** Numbers: the product of two doubles

    A double is the rational it stands for. The product of two doubles is
    the exact product rounded to the nearest double, ties to the even
    mantissa: 53 bits of mantissa, the exponent of the last bit no lower than
    -1074. Products here stay below 2^20, far from overflow, which is left
    out. *)

Definition pow2 (e : Z) : Q := Qpower 2 e.

(** Nearest whole number, a tie going to the even one. *)
Definition round_half_even (x : Q) : Z :=
  let f := Qfloor x in
  match Qcompare (x - inject_Z f) (1 # 2) with
  | Lt => f
  | Gt => f + 1
  | Eq => if Z.even f then f else f + 1
  end.

(** For [q > 0], the [k] with [2^k <= q < 2^(k+1)]. *)
Definition binade (q : Q) : Z :=
  let k := Z.log2 (Qnum q) - Z.log2 (Z.pos (Qden q)) in
  if Qle_bool (pow2 k) q then k else k - 1.

Definition round_positive (q : Q) : Q :=
  let e := Z.max (binade q - 52) (-1074) in
  inject_Z (round_half_even (q / pow2 e)) * pow2 e.

(** The nearest double. *)
Definition binary64 (q : Q) : Q :=
  match Qcompare q 0 with
  | Eq => 0
  | Gt => round_positive q
  | Lt => - round_positive (- q)
  end.

(** [Math.floor(r * 1000000)] for the double [r]. *)
Definition id_of_draw (r : Q) : Z := Qfloor (binary64 (r * 1000000)).
Arguments id_of_draw : simpl never.

(** [Math.floor(Math.random() * 1000000)] *)
Definition random_id : Prog Z :=
  r <- math_random ;; ret (id_of_draw r).

(** [error instanceof Error ? error.message : fallback] *)
Definition message_of (e : Thrown) (fallback : string) : string :=
  match e with
  | ErrorObj msg => msg
  | OtherValue _ => fallback
  end.

(** [data.error.data?.message || data.error.message] *)
Definition rpc_error_text (e : RpcError) : string :=
  str_or (option_map data_message (error_data e)) (error_message e).

(** ** The service, [class OdooService] *)

Section OdooService.

Variable preferences : Preferences.

(** [get apiUrl()] *)
Definition apiUrl : string :=
  strip_trailing_slash (odooUrl preferences) ++ "/jsonrpc".

Definition http_error (r : HttpResponse) : Thrown :=
  ErrorObj ("HTTP error! status: " ++ string_of_Z (status r)).

(** The steps both methods take on a response: the status check, the
    decoding, the [error] check. Gives back the decoded [data]. *)
Definition checked_data (response : HttpResponse) : Prog Envelope :=
  if negb (ok response) then throw (http_error response)
  else
    data <- response_json response ;;
    match error data with
    | Some e => throw (ErrorObj (rpc_error_text e))
    | None => ret data
    end.

Definition authBody (id : Z) : Request :=
  {| rq_url := apiUrl;
     rq_jsonrpc := "2.0";
     rq_call := "call";
     rq_service := "common";
     rq_method := "login";
     rq_args := [JStr (database preferences); JStr (userLogin preferences);
                 JStr (apiKey preferences)];
     rq_id := id |}.

Definition authenticate : Prog json :=
  cached <- readUid ;;
  if truthy cached then ret cached
  else
    try_catch
      (id <- random_id ;;
       response <- fetch (authBody id) ;;
       data <- checked_data response ;;
       writeUid (js_or (result data) JNull) ;;;
       readUid)
      (fun error =>
         console_error "Authentication error:" error ;;;
         showToast {| style := Failure;
                      title := "Authentication Error";
                      message := message_of error "Failed to authenticate with Odoo" |} ;;;
         ret JNull).

Definition requestBody (uid : json) (model method : string) (args : list json)
    (kwargs : JsObject) (id : Z) : Request :=
  {| rq_url := apiUrl;
     rq_jsonrpc := "2.0";
     rq_call := "call";
     rq_service := "object";
     rq_method := "execute_kw";
     rq_args := [JStr (database preferences); uid; JStr (apiKey preferences);
                 JStr model; JStr method; JArr args; JObj kwargs];
     rq_id := id |}.

Definition execute (model method : string) (args : list json) (kwargs : JsObject)
    : Prog json :=
  try_catch
    (uid <- authenticate ;;
     if negb (truthy uid) then ret JNull
     else
       id <- random_id ;;
       response <- fetch (requestBody uid model method args kwargs id) ;;
       data <- checked_data response ;;
       ret (js_or (result data) JNull))
    (fun error =>
       console_error ("Error executing " ++ model ++ "." ++ method ++ ":") error ;;;
       throw error).

Definition searchRead (model : string) (domain : list json) (options : JsObject)
    : Prog json :=
  try_catch
    (result <- execute model "search_read" [JArr domain] options ;;
     ret (js_or (Some result) (JArr [])))
    (fun error =>
       console_error ("Error searching " ++ model ++ ":") error ;;;
       showToast {| style := Failure;
                    title := "Search Error";
                    message := message_of error ("Failed to search " ++ model) |} ;;;
       ret (JArr [])).

(** [["|", ["name", "ilike", query], ["display_name", "ilike", query]]] *)
Definition name_domain (query : string) : list json :=
  [JStr "|";
   JArr [JStr "name"; JStr "ilike"; JStr query];
   JArr [JStr "display_name"; JStr "ilike"; JStr query]].

Definition searchByName (model query : string) (options : JsObject) : Prog json :=
  let domain := name_domain query in
  searchRead model domain (obj_set "domain" (JArr domain) options).

(** The parameter's default, [{ fields: [] }], stands in for [undefined]. *)
Definition getAll (model : string) (options : option JsObject) : Prog json :=
  let options := match options with
                 | Some o => o
                 | None => [("fields", JArr [])]
                 end in
  let searchOptions := obj_set "limit" (js_or (obj_get "limit" options) (JNum 100)) options in
  searchRead model [] searchOptions.

Definition invalidateAuth : Prog unit := writeUid JNull.

End OdooService.

(** ** Running a method *)

(** The instance's cache, what the user was shown, and the record of the
    run: how many random numbers were drawn and which requests met which
    outcome, oldest first. *)
Record World := {
  uid : json;
  toasts : list Toast;
  console : list (string * Thrown);
  draws : nat;
  exchanges : list (Request * FetchOutcome)
}.

Definition set_uid (v : json) (w : World) : World :=
  {| uid := v; toasts := toasts w; console := console w;
     draws := draws w; exchanges := exchanges w |}.

Definition add_toast (t : Toast) (w : World) : World :=
  {| uid := uid w; toasts := toasts w ++ [t]; console := console w;
     draws := draws w; exchanges := exchanges w |}.

Definition add_console (l : string) (e : Thrown) (w : World) : World :=
  {| uid := uid w; toasts := toasts w; console := console w ++ [(l, e)];
     draws := draws w; exchanges := exchanges w |}.

Definition next_draw (w : World) : World :=
  {| uid := uid w; toasts := toasts w; console := console w;
     draws := S (draws w); exchanges := exchanges w |}.

Definition add_exchange (rq : Request) (out : FetchOutcome) (w : World) : World :=
  {| uid := uid w; toasts := toasts w; console := console w;
     draws := draws w; exchanges := exchanges w ++ [(rq, out)] |}.

(** A new instance: [private uid: number | null = null]. *)
Definition fresh_world : World :=
  {| uid := JNull; toasts := []; console := []; draws := 0; exchanges := [] |}.

Definition is_login (x : Request * FetchOutcome) : bool :=
  String.eqb (rq_service (fst x)) "common" && String.eqb (rq_method (fst x)) "login".

Definition is_execute_kw (x : Request * FetchOutcome) : bool :=
  String.eqb (rq_service (fst x)) "object" && String.eqb (rq_method (fst x)) "execute_kw".

(** What a run added to the record. *)
Definition new_exchanges (before after : World) : list (Request * FetchOutcome) :=
  skipn (List.length (exchanges before)) (exchanges after).

(** The part of an [execute_kw] request after database, session and key:
    model, method, positional arguments, keyword options. *)
Definition call_part (rq : Request) : list json := skipn 3 (rq_args rq).

(** What a view passes to [getAll]: [{ fields }] or [{ fields, limit }]. *)
Definition list_options (fields : list json) (limit : option Z) : JsObject :=
  ("fields", JArr fields) ::
  match limit with
  | Some l => [("limit", JNum l)]
  | None => []
  end.

Definition login_calls (w : World) : nat := List.length (filter is_login (exchanges w)).

Definition execute_kw_calls (w : World) : nat :=
  List.length (filter is_execute_kw (exchanges w)).

(** Several calls of one instance together: the requests in flight with
    what each call does on the answer, and the calls that have ended. *)
Record Sched (A : Type) := {
  world : World;
  in_flight : list (Request * (FetchOutcome -> Prog A));
  settled : list (Outcome A)
}.
Arguments world {A} s.
Arguments in_flight {A} s.
Arguments settled {A} s.

Definition park {A} (s : Sched A)
    (r : World * (Outcome A + Request * (FetchOutcome -> Prog A))) : Sched A :=
  match r with
  | (w, inl o) =>
      {| world := w; in_flight := in_flight s; settled := settled s ++ [o] |}
  | (w, inr pending) =>
      {| world := w; in_flight := in_flight s ++ [pending]; settled := settled s |}
  end.

Section Run.

(** The [n]-th value of [Math.random()], and the backend: the outcome of a
    request, given everything exchanged before it. *)
Variable Math_random : nat -> Q.
Variable backend : list (Request * FetchOutcome) -> Request -> FetchOutcome.

(** One call run to its end, each request answered before the call goes on. *)
Fixpoint exec {A} (p : Prog A) (w : World) : Outcome A * World :=
  match p with
  | Done o => (o, w)
  | ReadUid k => exec (k (uid w)) w
  | WriteUid v k => exec k (set_uid v w)
  | ShowToast t k => exec k (add_toast t w)
  | ConsoleError l e k => exec k (add_console l e w)
  | MathRandom k => exec (k (Math_random (draws w))) (next_draw w)
  | Fetch rq k =>
      let out := backend (exchanges w) rq in
      exec (k out) (add_exchange rq out w)
  end.

(** The identifier the next request will carry. *)
Definition next_id (w : World) : Z := id_of_draw (Math_random (draws w)).

(** A call run up to its next request: it has ended, or it waits. *)
Fixpoint run_to_fetch {A} (p : Prog A) (w : World)
    : World * (Outcome A + Request * (FetchOutcome -> Prog A)) :=
  match p with
  | Done o => (w, inl o)
  | ReadUid k => run_to_fetch (k (uid w)) w
  | WriteUid v k => run_to_fetch k (set_uid v w)
  | ShowToast t k => run_to_fetch k (add_toast t w)
  | ConsoleError l e k => run_to_fetch k (add_console l e w)
  | MathRandom k => run_to_fetch (k (Math_random (draws w))) (next_draw w)
  | Fetch rq k => (w, inr (rq, k))
  end.

(** A call is made and not awaited: it runs up to its first request. *)
Definition start {A} (p : Prog A) (s : Sched A) : Sched A :=
  park s (run_to_fetch p (world s)).

Fixpoint remove_nth {X} (n : nat) (l : list X) : list X :=
  match n, l with
  | _, [] => []
  | O, _ :: rest => rest
  | S n', x :: rest => x :: remove_nth n' rest
  end.

(** The [n]-th request in flight settles with [out]; its call goes on. *)
Definition deliver {A} (n : nat) (out : FetchOutcome) (s : Sched A) : Sched A :=
  match nth_error (in_flight s) n with
  | None => s
  | Some (rq, k) =>
      park {| world := world s;
              in_flight := remove_nth n (in_flight s);
              settled := settled s |}
           (run_to_fetch (k out) (add_exchange rq out (world s)))
  end.

End Run.

Definition idle {A} (w : World) : Sched A :=
  {| world := w; in_flight := []; settled := [] |}.

(** ** Worked example: the scenario of the specification *)

Module Scenario.

Definition prefs : Preferences :=
  {| odooUrl := "https://example.odoo.com/"; apiKey := "k";
     database := "acme"; userLogin := "api" |}.

Definition project_12 : json :=
  JObj [("id", JNum 12); ("name", JStr "Website Revamp");
        ("display_name", JStr "Website Revamp")].

Definition reply (v : json) : FetchOutcome :=
  Responded {| status := 200; body := inr {| result := Some v; error := None |} |}.

(** Login gives session 7; every [execute_kw] gives the one project. *)
Definition backend (_ : list (Request * FetchOutcome)) (rq : Request) : FetchOutcome :=
  if String.eqb (rq_method rq) "login" then reply (JNum 7)
  else reply (JArr [project_12]).

Definition half (_ : nat) : Q := 1 # 2.

Definition fields : JsObject :=
  [("fields", JArr [JStr "id"; JStr "name"; JStr "display_name"])].

(** The instance once session 7 is cached. *)
Definition logged_in : World := set_uid (JNum 7) fresh_world.

(** Two calls made one after the other and not awaited. *)
Definition two_in_flight : Sched json :=
  start half (getAll prefs "project.project" (Some fields))
    (start half (searchByName prefs "project.project" "web" fields) (idle logged_in)).

End Scenario.

(** ** Worked example: the backend fails *)

Module ServerError.

Definition internal_error : HttpResponse :=
  {| status := 500; body := inl "Unexpected token < in JSON at position 0" |}.

(** Login works; every [execute_kw] is answered with status 500. *)
Definition backend (_ : list (Request * FetchOutcome)) (rq : Request) : FetchOutcome :=
  if String.eqb (rq_method rq) "login" then Scenario.reply (JNum 7)
  else Responded internal_error.

End ServerError.

(** ** Worked example: falsy parts of an answer *)

Module FalsyAnswers.




End FalsyAnswers.

(** ** Worked example: the login is refused *)

Module InvalidCredentials.

(** The login call is answered [{ error: { message: "Invalid credentials" } }]. *)
Definition backend (_ : list (Request * FetchOutcome)) (_ : Request) : FetchOutcome :=
  Responded {| status := 200;
               body := inr {| result := None;
                              error := Some {| error_message := "Invalid credentials";
                                               error_data := None |} |} |}.

End InvalidCredentials.

(** What a request's outcome comes to once the status, the decoding and the
    [error] field have been checked: the value thrown, or [data.result || null]. *)
Definition settle (out : FetchOutcome) : Thrown + json :=
  match out with
  | NetworkFailure msg => inl (ErrorObj msg)
  | Responded r =>
      if negb (ok r) then inl (http_error r)
      else match body r with
           | inl msg => inl (ErrorObj msg)
           | inr data =>
               match error data with
               | Some e => inl (ErrorObj (rpc_error_text e))
               | None => inr (js_or (result data) JNull)
               end
           end
  end.

(** The login call fails: rejection, bad status, undecodable body or an
    [error] envelope. *)
Definition login_fails (out : FetchOutcome) : bool :=
  match settle out with
  | inl _ => true
  | inr _ => false
  end.

(** The two toasts of the service. *)
Definition auth_toast (e : Thrown) : Toast :=
  {| style := Failure; title := "Authentication Error";
     message := message_of e "Failed to authenticate with Odoo" |}.

Definition search_toast (model : string) (e : Thrown) : Toast :=
  {| style := Failure; title := "Search Error";
     message := message_of e ("Failed to search " ++ model) |}.

(** ** The search views *)

(** Text is a string of code units below 256; [String.prototype.trim] strips
    tab, line feed, vertical tab, form feed, carriage return, space and the
    no-break space among those. *)
Definition is_space (c : ascii) : bool :=
  let n := nat_of_ascii c in
  ((9 <=? n)%nat && (n <=? 13)%nat) || (n =? 32)%nat || (n =? 160)%nat.

Fixpoint trim_start (s : string) : string :=
  match s with
  | EmptyString => EmptyString
  | String c rest => if is_space c then trim_start rest else s
  end.

Fixpoint trim_end (s : string) : string :=
  match s with
  | EmptyString => EmptyString
  | String c rest =>
      let rest' := trim_end rest in
      if is_space c && String.eqb rest' "" then EmptyString else String c rest'
  end.

Definition trim (s : string) : string := trim_end (trim_start s).

(** The queries a view can send. The first two go through the view's
    [OdooService]; the last is the inline predecessor's own login followed
    by [execute_kw] of [search_read]. *)
Inductive Query :=
| SearchByName (model query : string) (options : JsObject)
| GetAll (model : string) (options : option JsObject)
| InlineSearchRead (model : string) (domain : list json) (kwargs : JsObject).

(** What calling one of a view's async functions does: send a query and
    resolve with its records, or resolve at once. *)
Inductive Asked :=
| Ask (q : Query)
| Resolve (v : json).

(** What a firing of the timer does to the view. *)
Inductive ViewEffect :=
| ThenSetProjects (a : Asked)
| SetProjects (v : json).

Definition query_of (e : ViewEffect) : list Query :=
  match e with
  | ThenSetProjects (Ask q) => [q]
  | ThenSetProjects (Resolve _) => []
  | SetProjects _ => []
  end.

Definition queries (es : list ViewEffect) : list Query := flat_map query_of es.

Definition fields_option (fields : list string) : JsObject :=
  [("fields", JArr (map JStr fields))].

Section SearchView.

(** How the view searches by name and how it lists everything. *)
Variable ask_search : string -> Query.
Variable ask_all : Query.

Definition search (query : string) : Asked :=
  if String.eqb (trim query) "" then Resolve (JArr [])
  else Ask (ask_search query).

Definition list_all : Asked := Ask ask_all.

(** The function handed to [setTimeout] by the debounced search effect. *)
Definition debounced_search (searchText : string) : list ViewEffect :=
  if (2 <=? String.length searchText)%nat then [ThenSetProjects (search searchText)]
  else if (String.length searchText =? 0)%nat then [ThenSetProjects list_all]
  else [].

(** The earliest variant empties the list instead of listing everything. *)
Definition debounced_search_legacy (searchText : string) : list ViewEffect :=
  if (2 <=? String.length searchText)%nat then [ThenSetProjects (search searchText)]
  else [SetProjects (JArr [])].

End SearchView.

Module SearchProjects.

Definition project_fields : list string :=
  ["id"; "name"; "display_name"; "description"; "user_id"; "partner_id";
   "stage_id"; "task_count"; "active"; "company_id"; "date_start"; "date"].

Definition ask_search (query : string) : Query :=
  SearchByName "project.project" query (fields_option project_fields).

Definition ask_all : Query :=
  GetAll "project.project"
         (Some (fields_option project_fields ++ [("limit", JNum 100)])%list).

Definition searchProjects : string -> Asked := search ask_search.
Definition getAllProjects : Asked := list_all ask_all.
Definition debounced : string -> list ViewEffect := debounced_search ask_search ask_all.

End SearchProjects.

Module SearchHelpdesk.

Definition team_fields : list string :=
  ["id"; "name"; "display_name"; "description"; "member_ids";
   "use_helpdesk_timesheet"; "use_helpdesk_sale_timesheet"; "stage_ids";
   "company_id"; "active"].

Definition ask_search (query : string) : Query :=
  SearchByName "helpdesk.team" query (fields_option team_fields).

Definition ask_all : Query :=
  GetAll "helpdesk.team"
         (Some (fields_option team_fields ++ [("limit", JNum 100)])%list).

Definition searchHelpdeskTeams : string -> Asked := search ask_search.
Definition getAllHelpdeskTeams : Asked := list_all ask_all.
Definition debounced : string -> list ViewEffect := debounced_search ask_search ask_all.

End SearchHelpdesk.

(** The projects view before the service existed: no listing, its own
    requests. *)
Module LegacyProjects.

Definition project_fields : list string :=
  ["id"; "name"; "display_name"; "description"; "user_id"; "partner_id";
   "stage_id"; "task_count"].

Definition ask_search (query : string) : Query :=
  InlineSearchRead "project.project" (name_domain query) (fields_option project_fields).

Definition searchProjects : string -> Asked := search ask_search.
Definition debounced : string -> list ViewEffect := debounced_search_legacy ask_search.

End LegacyProjects.

(** ** The inline requests of the earlier views *)

Section Inline.

Variable preferences : Preferences.

(** The view's own [authenticate]: no cache, a login on every call. An
    absent [result] is returned as it is; it is only tested for truth. *)
Definition inline_authenticate : Prog json :=
  try_catch
    (id <- random_id ;;
     response <- fetch (authBody preferences id) ;;
     data <- checked_data response ;;
     ret match result data with
         | Some v => v
         | None => JNull
         end)
    (fun error =>
       console_error "Authentication error:" error ;;;
       showToast (auth_toast error) ;;;
       ret JNull).

(** The body of the view's own [searchProjects] past the blank test. *)
Definition inline_search_read (model : string) (domain : list json) (kwargs : JsObject)
    : Prog json :=
  try_catch
    (uid <- inline_authenticate ;;
     if negb (truthy uid) then ret (JArr [])
     else
       id <- random_id ;;
       response <- fetch (requestBody preferences uid model "search_read"
                            [JArr domain] kwargs id) ;;
       data <- checked_data response ;;
       ret (js_or (result data) (JArr [])))
    (fun error =>
       console_error "Error searching projects:" error ;;;
       showToast {| style := Failure; title := "Error";
                    message := message_of error "Failed to search projects" |} ;;;
       ret (JArr [])).

(** What sending a query runs. *)
Definition perform (q : Query) : Prog json :=
  match q with
  | SearchByName model query options => searchByName preferences model query options
  | GetAll model options => getAll preferences model options
  | InlineSearchRead model domain kwargs => inline_search_read model domain kwargs
  end.

End Inline.

(** ** The debounce timer *)

(** The view between events: the text, the one timer that may be pending
    (when it is due and the text its closure holds), the time, and what the
    firings have done so far. *)
Record View := {
  searchText : string;
  timer : option (Z * string);
  clock : Z;
  effects : list ViewEffect
}.

Definition delay : Z := 300.

Section Debounce.

Variable callback : string -> list ViewEffect.

(** Time moves to [now]; a timer that is due fires on the way. *)
Definition advance (now : Z) (v : View) : View :=
  match timer v with
  | Some (due, text) =>
      if due <=? now then
        {| searchText := searchText v; timer := None; clock := now;
           effects := effects v ++ callback text |}
      else
        {| searchText := searchText v; timer := timer v; clock := now;
           effects := effects v |}
  | None =>
      {| searchText := searchText v; timer := None; clock := now;
         effects := effects v |}
  end.

(** [setSearchText(text)] at time [now]. Setting the same text renders
    nothing anew; a new text runs the effect's cleanup ([clearTimeout]) and
    then the effect ([setTimeout] of 300). *)
Definition onSearchTextChange (now : Z) (text : string) (v : View) : View :=
  let v := advance now v in
  if String.eqb text (searchText v) then v
  else
    {| searchText := text; timer := Some (now + delay, text); clock := now;
       effects := effects v |}.

Fixpoint type_all (events : list (Z * string)) (v : View) : View :=
  match events with
  | [] => v
  | (now, text) :: rest => type_all rest (onSearchTextChange now text v)
  end.

(** No more input: the pending timer, if any, runs out. *)
Definition quiesce (v : View) : View :=
  match timer v with
  | Some (due, _) => advance (Z.max due (clock v)) v
  | None => v
  end.

(** The first render: the listing effect has run and the debounce effect
    has set its first timer. *)
Definition mount (initial : list ViewEffect) : View :=
  {| searchText := ""; timer := Some (delay, ""); clock := 0; effects := initial |}.

End Debounce.

(** The text changes, one after the other: each differs from the one before. *)
Fixpoint each_changes (current : string) (events : list (Z * string)) : Prop :=
  match events with
  | [] => True
  | (_, text) :: rest => text <> current /\ each_changes text rest
  end.

(** Each event after the first comes less than 300 after the one before. *)
Fixpoint spaced (events : list (Z * string)) : Prop :=
  match events with
  | (t1, _) :: (((t2, _) :: _) as rest) => t1 <= t2 < t1 + delay /\ spaced rest
  | _ => True
  end.

(** At time [now] the view's pending timer, if any, has not run out yet. *)
Definition before_due (now : Z) (v : View) : Prop :=
  clock v <= now /\
  match timer v with
  | Some (due, _) => now < due
  | None => True
  end.

(** ** More of the views: deep links, empty views, inline listing *)

(** [preferences.odooUrl.replace(/\/$/, "")] *)
Definition base_url (p : Preferences) : string := strip_trailing_slash (odooUrl p).

(** [`${id}`] for a record id. An id is a JavaScript number; every whole
    number of magnitude up to 2^53 is one, and prints as its decimal digits.
    Larger ids do not all exist as numbers and may print with an exponent:
    they are left out ([None]). *)
Definition id_text (id : Z) : option string :=
  if Z.abs id <=? 2 ^ 53 then Some (string_of_Z id) else None.

(** The link opened by [openProjectTasks] (and copied as the project URL by
    the current projects view). *)
Definition tasks_url (p : Preferences) (id : Z) : option string :=
  option_map (fun text => base_url p ++ "/odoo/action-369/" ++ text ++ "/tasks")
             (id_text id).

(** The link opened by [openHelpdeskTickets]. *)
Definition tickets_url (p : Preferences) (id : Z) : option string :=
  option_map (fun text => base_url p ++ "/odoo/helpdesk/" ++ text ++ "/tickets")
             (id_text id).

(** The form link copied by the helpdesk view and by the earlier projects
    views. *)
Definition web_form_url (p : Preferences) (model : string) (id : Z) : option string :=
  option_map (fun text => base_url p ++ "/web#id=" ++ text ++ "&model=" ++ model
                          ++ "&view_type=form")
             (id_text id).

Fixpoint ends_with_slash (s : string) : bool :=
  match s with
  | EmptyString => false
  | String c EmptyString => Ascii.eqb c "/"
  | String _ rest => ends_with_slash rest
  end.

Definition with_url (url : string) (p : Preferences) : Preferences :=
  {| odooUrl := url; apiKey := apiKey p; database := database p;
     userLogin := userLogin p |}.

(** The three [List.EmptyView] elements a view may render, in order. *)
Inductive EmptyView := TypeMore | NoneFound | NoneAvailable.

Definition empty_views (searchText : string) (count : nat) (isLoading : bool)
    : list EmptyView :=
  let len := String.length searchText in
  ((if (0 <? len)%nat && (len <? 2)%nat then [TypeMore] else []) ++
   (if (2 <=? len)%nat && (count =? 0)%nat && negb isLoading then [NoneFound] else []) ++
   (if (len =? 0)%nat && (count =? 0)%nat && negb isLoading then [NoneAvailable] else []))%list.

(** The inline search and the inline listing differ in their labels only. *)
Definition inline_call (preferences : Preferences) (label fallback : string)
    (model : string) (domain : list json) (kwargs : JsObject) : Prog json :=
  try_catch
    (uid <- inline_authenticate preferences ;;
     if negb (truthy uid) then ret (JArr [])
     else
       id <- random_id ;;
       response <- fetch (requestBody preferences uid model "search_read"
                            [JArr domain] kwargs id) ;;
       data <- checked_data response ;;
       ret (js_or (result data) (JArr [])))
    (fun error =>
       console_error label error ;;;
       showToast {| style := Failure; title := "Error";
                    message := message_of error fallback |} ;;;
       ret (JArr [])).

Module InlineProjects.

(** [searchProjects] and [getAllProjects] of the projects view that makes
    its own requests. *)
Definition searchProjects (preferences : Preferences) (query : string) : Prog json :=
  if String.eqb (trim query) "" then ret (JArr [])
  else inline_call preferences "Error searching projects:" "Failed to search projects"
         "project.project" (name_domain query)
         (fields_option SearchProjects.project_fields).

Definition getAllProjects (preferences : Preferences) : Prog json :=
  inline_call preferences "Error getting all projects:" "Failed to get projects"
    "project.project" []
    (fields_option SearchProjects.project_fields ++ [("limit", JNum 100)])%list.

End InlineProjects.

Module InlineHelpdesk.

Definition searchHelpdeskTeams (preferences : Preferences) (query : string) : Prog json :=
  if String.eqb (trim query) "" then ret (JArr [])
  else inline_call preferences "Error searching helpdesk teams:"
         "Failed to search helpdesk teams"
         "helpdesk.team" (name_domain query)
         (fields_option SearchHelpdesk.team_fields).

End InlineHelpdesk.

(** What a view's async function runs: its query, or nothing. *)
Definition run_asked (preferences : Preferences) (a : Asked) : Prog json :=
  match a with
  | Ask q => perform preferences q
  | Resolve v => ret v
  end.

(** The cache holds [null] or a truthy session. *)
Definition uid_ok (w : World) : Prop := uid w = JNull \/ truthy (uid w) = true.

(** A query a debounced firing may send: the listing, or a search whose
    text passed the gate. *)
Definition allowed (ask_search : string -> Query) (ask_all : Query) (q : Query) : Prop :=
  q = ask_all \/
  exists text, q = ask_search text /\ (2 <= String.length text)%nat /\ trim text <> "".

(** Each event comes at least 300 after the one before. *)
Fixpoint paused (events : list (Z * string)) : Prop :=
  match events with
  | (t1, _) :: (((t2, _) :: _) as rest) => t1 + delay <= t2 /\ paused rest
  | _ => True
  end.

(** The pending timer holds the text the view shows and is due no later
    than 300 from now. *)
Definition timer_current (v : View) : Prop :=
  match timer v with
  | Some (due, text) => text = searchText v /\ due <= clock v + delay
  | None => True
  end.

(** ** Worked example: the login is answered [false] *)

Module WrongPassword.

(** What the backend answers to a login with a wrong key: [{ result: false }]. *)
Definition backend (_ : list (Request * FetchOutcome)) (_ : Request) : FetchOutcome :=
  Scenario.reply (JBool false).

End WrongPassword.

(** Every character is whitespace (so is the empty text). *)
Fixpoint all_space (s : string) : bool :=
  match s with
  | EmptyString => true
  | String c rest => is_space c && all_space rest
  end.

(** The events come in order of time, none before [since]. *)
Fixpoint chronological (since : Z) (events : list (Z * string)) : Prop :=
  match events with
  | [] => True
  | (now, _) :: rest => since <= now /\ chronological now rest
  end.

(** What the pending timer will do when it fires. *)
Definition pending_effects (callback : string -> list ViewEffect) (v : View)
    : list ViewEffect :=
  match timer v with
  | Some (_, text) => callback text
  | None => []
  end.

(** Whether a timer is pending, as a count. *)
Definition pending_count (v : View) : nat :=
  match timer v with
  | Some _ => 1
  | None => 0
  end.

(** The pending timer, if any, is due by the time [now]. *)
Definition due_by (now : Z) (v : View) : Prop :=
  clock v <= now /\
  match timer v with
  | Some (due, _) => due <= now
  | None => True
  end.

(** ** Any order of calls and answers *)

(** What can happen to an instance: a call to [execute] is made and not
    awaited, a view sends a query, or a request in flight is answered. *)
Inductive SchedStep :=
| BeginExecute (model method : string) (args : list json) (kwargs : JsObject)
| BeginQuery (q : Query)
| Answer (n : nat) (out : FetchOutcome).

Definition sched_step (preferences : Preferences) (Math_random : nat -> Q)
    (st : SchedStep) (s : Sched json) : Sched json :=
  match st with
  | BeginExecute model method args kwargs =>
      start Math_random (execute preferences model method args kwargs) s
  | BeginQuery q => start Math_random (perform preferences q) s
  | Answer n out => deliver Math_random n out s
  end.

Fixpoint sched_run (preferences : Preferences) (Math_random : nat -> Q)
    (steps : list SchedStep) (s : Sched json) : Sched json :=
  match steps with
  | [] => s
  | st :: rest => sched_run preferences Math_random rest
                    (sched_step preferences Math_random st s)
  end.

(** Every request of the program is sent right after a draw made for it,
    and carries the identifier of that draw. *)
Fixpoint ids_fresh {A} (p : Prog A) : Prop :=
  match p with
  | Done _ => True
  | ReadUid k => forall v, ids_fresh (k v)
  | WriteUid _ k => ids_fresh k
  | ShowToast _ k => ids_fresh k
  | ConsoleError _ _ k => ids_fresh k
  | MathRandom k =>
      forall r, match k r with
                | Fetch rq k' => rq_id rq = id_of_draw r /\ forall out, ids_fresh (k' out)
                | _ => False
                end
  | Fetch _ _ => False
  end.

(** The identifiers in flight. *)
Definition ids_in_flight {A} (s : Sched A) : list Z :=
  map (fun p => rq_id (fst p)) (in_flight s).

(** The identifiers in flight are those of draws all different from one
    another, none made before draw number [first]. *)
Definition own_draws {A} (Math_random : nat -> Q) (first : nat) (s : Sched A) : Prop :=
  exists ks,
    ids_in_flight s = map (fun k => id_of_draw (Math_random k)) ks /\
    NoDup ks /\
    Forall (fun k => (first <= k < draws (world s))%nat) ks.

(** What is kept from one step of the instance to the next: the above, and
    that every call in flight goes on with fresh identifiers. *)
Definition draws_kept (Math_random : nat -> Q) (first : nat) (s : Sched json) : Prop :=
  own_draws Math_random first s /\
  Forall (fun p => forall out, ids_fresh (snd p out)) (in_flight s) /\
  (first <= draws (world s))%nat.

(** ** Worked example: calls that overlap *)

Module Overlap.

(** A random source giving 0, 0.125, 0.25, ... *)
Definition eighths (n : nat) : Q := Z.of_nat n # 8.

(** Two calls are made, the second is answered, a third is made. *)
Definition steps : list SchedStep :=
  [BeginExecute "project.project" "search_read" [JArr []] Scenario.fields;
   BeginExecute "helpdesk.team" "search_read" [JArr []] Scenario.fields;
   Answer 1 (Scenario.reply (JArr []));
   BeginQuery SearchProjects.ask_all].

End Overlap.

(** Whether a query goes through the service and its session cache. *)
Definition uses_cache (q : Query) : bool :=
  match q with
  | SearchByName _ _ _ => true
  | GetAll _ _ => true
  | InlineSearchRead _ _ _ => false
  end.

(** The session an [execute_kw] request carries. *)
Definition session_of (rq : Request) : json := nth 1 (rq_args rq) JNull.

(** A run that began with a login of its own: the cache is as it was, one
    more login was sent, it was the first request, and the run gave a truthy
    value. *)
Definition logged_in_first (preferences : Preferences) (Math_random : nat -> Q)
    (backend : list (Request * FetchOutcome) -> Request -> FetchOutcome)
    (w : World) (res : Outcome json * World) : Prop :=
  uid (snd res) = uid w /\
  login_calls (snd res) = S (login_calls w) /\
  hd_error (new_exchanges w (snd res)) =
  Some (authBody preferences (next_id Math_random w),
        backend (exchanges w) (authBody preferences (next_id Math_random w))) /\
  exists v, fst res = Returned v /\ truthy v = true.

(** ** How [exec] goes through sequencing and [try]/[catch] *)

Section ExecLaws.

Variable Math_random : nat -> Q.
Variable backend : list (Request * FetchOutcome) -> Request -> FetchOutcome.

Local Abbreviation run := (exec Math_random backend).

Lemma exec_bind {A B} (p : Prog A) (f : A -> Prog B) (w : World) :
  run (bind p f) w =
  match run p w with
  | (Returned a, w') => run (f a) w'
  | (Threw e, w') => (Threw e, w')
  end.
Proof.
  revert w. induction p as [o | k IH | v k IH | t k IH | l e k IH | k IH | rq k IH];
    intro w; simpl; auto.
  destruct o; reflexivity.
Qed.

Lemma exec_try_catch {A} (p : Prog A) (h : Thrown -> Prog A) (w : World) :
  run (try_catch p h) w =
  match run p w with
  | (Returned a, w') => (Returned a, w')
  | (Threw e, w') => run (h e) w'
  end.
Proof.
  revert w. induction p as [o | k IH | v k IH | t k IH | l e k IH | k IH | rq k IH];
    intro w; simpl; auto.
  destruct o; reflexivity.
Qed.

(** The record of exchanges only grows. *)
Lemma exec_exchanges_grow {A} (p : Prog A) (w : World) :
  exists new, exchanges (snd (run p w)) = (exchanges w ++ new)%list.
Proof.
  revert w. induction p as [o | k IH | v k IH | t k IH | l e k IH | k IH | rq k IH];
    intro w; simpl.
  - exists []. now rewrite app_nil_r.
  - apply IH.
  - apply (IH (set_uid v w)).
  - apply (IH (add_toast t w)).
  - apply (IH (add_console l e w)).
  - apply (IH (Math_random (draws w)) (next_draw w)).
  - destruct (IH (backend (exchanges w) rq)
               (add_exchange rq (backend (exchanges w) rq) w)) as [new Hn].
    exists ((rq, backend (exchanges w) rq) :: new).
    rewrite Hn. simpl. now rewrite <- app_assoc.
Qed.

(** Running a call to its end is running it to its next request, answering
    that, and going on. *)
Lemma exec_run_to_fetch {A} (p : Prog A) (w : World) :
  run p w =
  match run_to_fetch Math_random p w with
  | (w', inl o) => (o, w')
  | (w', inr (rq, k)) =>
      run (k (backend (exchanges w') rq))
          (add_exchange rq (backend (exchanges w') rq) w')
  end.
Proof.
  revert w. induction p as [o | k IH | v k IH | t k IH | l e k IH | k IH | rq k IH];
    intro w; simpl; auto.
Qed.

End ExecLaws.

(** ** The service: what [authenticate] and [execute] come to *)

Section ServiceFacts.

Variable preferences : Preferences.
Variable Math_random : nat -> Q.
Variable backend : list (Request * FetchOutcome) -> Request -> FetchOutcome.

Local Abbreviation run := (exec Math_random backend).
Local Abbreviation new_id := (next_id Math_random).

Lemma authenticate_warm (w : World) :
  truthy (uid w) = true ->
  run (authenticate preferences) w = (Returned (uid w), w).
Proof.
  intro H. unfold authenticate. simpl. now rewrite H.
Qed.

Lemma authenticate_cold (w : World) :
  truthy (uid w) = false ->
  run (authenticate preferences) w =
  let rq := authBody preferences (new_id w) in
  let out := backend (exchanges w) rq in
  let w1 := add_exchange rq out (next_draw w) in
  match settle out with
  | inr v => (Returned v, set_uid v w1)
  | inl e =>
      (Returned JNull,
       add_toast (auth_toast e) (add_console "Authentication error:" e w1))
  end.
Proof.
  intro H. unfold authenticate. simpl. rewrite H. simpl.
  unfold settle, next_id.
  destruct (backend _ _) as [msg | r]; simpl; [reflexivity |].
  unfold checked_data, response_json.
  destruct (ok r); simpl; [| reflexivity].
  destruct (body r) as [msg | data]; simpl; [reflexivity |].
  destruct (error data); reflexivity.
Qed.

Lemma execute_warm (w : World) (model method : string) (args : list json)
    (kwargs : JsObject) :
  truthy (uid w) = true ->
  run (execute preferences model method args kwargs) w =
  let rq := requestBody preferences (uid w) model method args kwargs (new_id w) in
  let out := backend (exchanges w) rq in
  let w1 := add_exchange rq out (next_draw w) in
  match settle out with
  | inr v => (Returned v, w1)
  | inl e =>
      (Threw e, add_console ("Error executing " ++ model ++ "." ++ method ++ ":") e w1)
  end.
Proof.
  intro H. unfold execute, authenticate. simpl. rewrite H. simpl. rewrite H. simpl.
  unfold settle, next_id.
  destruct (backend _ _) as [msg | r]; simpl; [reflexivity |].
  unfold checked_data, response_json.
  destruct (ok r); simpl; [| reflexivity].
  destruct (body r) as [msg | data]; simpl; [reflexivity |].
  destruct (error data); reflexivity.
Qed.

(** With no session cached, [execute] is [authenticate] followed, when that
    gave a session, by the call itself. *)
Lemma execute_cold (w : World) (model method : string) (args : list json)
    (kwargs : JsObject) :
  truthy (uid w) = false ->
  run (execute preferences model method args kwargs) w =
  let rq := authBody preferences (new_id w) in
  let out := backend (exchanges w) rq in
  let w1 := add_exchange rq out (next_draw w) in
  match settle out with
  | inr v =>
      if truthy v
      then run (execute preferences model method args kwargs) (set_uid v w1)
      else (Returned JNull, set_uid v w1)
  | inl e =>
      (Returned JNull,
       add_toast (auth_toast e) (add_console "Authentication error:" e w1))
  end.
Proof.
  intro H. cbv zeta.
  unfold execute at 1.
  rewrite exec_try_catch, exec_bind, (authenticate_cold w H). cbv zeta.
  destruct (settle _) as [e | v]; [reflexivity |].
  cbv beta iota.
  destruct (truthy v) eqn:Hv; [| reflexivity].
  unfold execute. rewrite exec_try_catch, exec_bind.
  rewrite authenticate_warm by exact Hv.
  cbv beta iota. cbn [uid set_uid]. now rewrite Hv.
Qed.

End ServiceFacts.

(** ** The search views: what a firing of the timer dispatches *)

Section GateFacts.

Variable ask_search : string -> Query.
Variable ask_all : Query.

Lemma trim_blank_length_2 : trim "  " = "" /\ String.length "  " = 2%nat.
Proof. split; reflexivity. Qed.






(** A firing sends at most one query. *)
Lemma debounced_at_most_one (text : string) :
  (List.length (queries (debounced_search ask_search ask_all text)) <= 1)%nat.
Proof.
  unfold debounced_search, search, list_all.
  destruct (2 <=? String.length text)%nat.
  - destruct (String.eqb (trim text) ""); simpl; lia.
  - destruct (String.length text =? 0)%nat; simpl; lia.
Qed.

(** The one query of a firing is made from the text the firing sees. *)
Lemma debounced_query_source (text : string) (q : Query) :
  In q (queries (debounced_search ask_search ask_all text)) ->
  q = ask_search text \/ (text = "" /\ q = ask_all).
Proof.
  unfold debounced_search, search, list_all.
  destruct (2 <=? String.length text)%nat eqn:E2.
  - destruct (String.eqb (trim text) ""); simpl; intuition.
  - destruct (String.length text =? 0)%nat eqn:E0; simpl; [| intuition].
    intros [<- | []]. right. split; [| reflexivity].
    apply Nat.eqb_eq in E0. destruct text; [reflexivity | discriminate].
Qed.

End GateFacts.




(** ** The debounce timer: coalescing *)

Section DebounceFacts.

Variable callback : string -> list ViewEffect.

(** Before the timer is due, moving the clock changes nothing else. *)
Lemma advance_before_due (now : Z) (v : View) :
  before_due now v ->
  advance callback now v =
  {| searchText := searchText v; timer := timer v; clock := now; effects := effects v |}.
Proof.
  intros [_ Hdue]. unfold advance.
  destruct (timer v) as [[due text] |]; [| reflexivity].
  destruct (Z.leb_spec due now); [lia | reflexivity].
Qed.

(** A change of text before the timer is due replaces the timer; nothing fires. *)
Lemma change_before_due (now : Z) (text : string) (v : View) :
  before_due now v -> text <> searchText v ->
  onSearchTextChange callback now text v =
  {| searchText := text; timer := Some (now + delay, text); clock := now;
     effects := effects v |}.
Proof.
  intros Hdue Hneq. unfold onSearchTextChange.
  rewrite (advance_before_due now v Hdue). simpl.
  destruct (String.eqb_spec text (searchText v)); [contradiction | reflexivity].
Qed.

(** A burst of changes leaves exactly the timer of its last change pending. *)
Lemma burst_leaves_last_timer (front : list (Z * string)) :
  forall (v : View) (now : Z) (text : string),
    each_changes (searchText v) (front ++ [(now, text)]) ->
    spaced (front ++ [(now, text)]) ->
    before_due (fst (hd (now, text) front)) v ->
    type_all callback (front ++ [(now, text)]) v =
    {| searchText := text; timer := Some (now + delay, text); clock := now;
       effects := effects v |}.
Proof.
  induction front as [| [t x] front IH]; intros v now text Hch Hsp Hdue.
  - simpl in *. apply change_before_due; tauto.
  - simpl in Hch, Hdue. destruct Hch as [Hneq Hch].
    change (type_all callback (((t, x) :: front) ++ [(now, text)]) v)
      with (type_all callback (front ++ [(now, text)])
              (onSearchTextChange callback t x v)).
    rewrite (change_before_due t x v Hdue Hneq).
    rewrite IH; simpl; auto.
    + simpl in Hsp. destruct front as [| [t2 x2] front']; simpl in *; tauto.
    + simpl in Hsp. unfold before_due. simpl. unfold delay in *.
      destruct front as [| [t2 x2] front']; simpl in *; lia.
Qed.

Lemma quiesce_fires (text : string) (now : Z) (done : list ViewEffect) :
  effects (quiesce callback
             {| searchText := text; timer := Some (now + delay, text); clock := now;
                effects := done |})
  = (done ++ callback text)%list.
Proof.
  unfold quiesce, advance. simpl.
  destruct (Z.leb_spec (now + delay) (Z.max (now + delay) now)); [reflexivity | lia].
Qed.

End DebounceFacts.

(** C3. A burst of one or more text changes, each less than 300 after the
    one before (the first before the pending timer runs out), dispatches
    nothing while it lasts; once input stops, the one timer left fires and
    sends at most one query, made from the text of the last change. *)
Theorem debounce_coalescing (ask_search : string -> Query) (ask_all : Query)
    (v : View) (front : list (Z * string)) (now : Z) (text : string) :
  let fire := debounced_search ask_search ask_all in
  let events := (front ++ [(now, text)])%list in
  each_changes (searchText v) events ->
  spaced events ->
  before_due (fst (hd (now, text) front)) v ->
  effects (type_all fire events v) = effects v /\
  timer (type_all fire events v) = Some (now + delay, text) /\
  effects (quiesce fire (type_all fire events v)) = (effects v ++ fire text)%list /\
  (List.length (queries (fire text)) <= 1)%nat /\
  (forall q, In q (queries (fire text)) ->
             q = ask_search text \/ (text = "" /\ q = ask_all)).
Proof.
  intros fire events Hch Hsp Hdue. subst events.
  rewrite (burst_leaves_last_timer fire front v now text Hch Hsp Hdue).
  repeat split.
  - apply quiesce_fires.
  - apply debounced_at_most_one.
  - apply debounced_query_source.
Qed.

Lemma debounce_coalescing_witness :
  let v := mount [ThenSetProjects SearchProjects.getAllProjects] in
  let events := [(100, "w"); (250, "we"); (400, "web")] in
  effects (type_all SearchProjects.debounced events v) = effects v /\
  queries (effects (quiesce SearchProjects.debounced
                      (type_all SearchProjects.debounced events v)))
  = [SearchProjects.ask_all; SearchProjects.ask_search "web"].
Proof.
  pose proof (debounce_coalescing SearchProjects.ask_search SearchProjects.ask_all
                (mount [ThenSetProjects SearchProjects.getAllProjects])
                [(100, "w"); (250, "we")] 400 "web") as H.
  cbv zeta in H.
  assert (H1 : "w" <> "" /\ "we" <> "w" /\ "web" <> "we" /\ True)
    by (repeat split; discriminate).
  assert (H2 : 100 <= 250 < 100 + delay /\ 250 <= 400 < 250 + delay /\ True)
    by (unfold delay; lia).
  assert (H3 : before_due 100 (mount [ThenSetProjects SearchProjects.getAllProjects]))
    by (unfold before_due, delay; simpl; lia).
  destruct (H H1 H2 H3) as (He & _ & Hq & _).
  split.
  - exact He.
  - unfold SearchProjects.debounced.
    change [(100, "w"); (250, "we"); (400, "web")]
      with ([(100, "w"); (250, "we")] ++ [(400, "web")])%list.
    rewrite Hq. reflexivity.
Defined.

(** ** The service: sessions *)

Section SessionFacts.

Variable preferences : Preferences.
Variable Math_random : nat -> Q.
Variable backend : list (Request * FetchOutcome) -> Request -> FetchOutcome.

Local Abbreviation run := (exec Math_random backend).
Local Abbreviation new_id := (next_id Math_random).

Lemma login_calls_login (w : World) (id : Z) (out : FetchOutcome) :
  login_calls (add_exchange (authBody preferences id) out w) = S (login_calls w).
Proof.
  unfold login_calls. simpl. rewrite filter_app, length_app. simpl. lia.
Qed.

Lemma login_calls_execute_kw (w : World) (u : json) (model method : string)
    (args : list json) (kwargs : JsObject) (id : Z) (out : FetchOutcome) :
  login_calls (add_exchange (requestBody preferences u model method args kwargs id) out w)
  = login_calls w.
Proof.
  unfold login_calls. simpl. rewrite filter_app, length_app. simpl. lia.
Qed.

Lemma execute_kw_calls_login (w : World) (id : Z) (out : FetchOutcome) :
  execute_kw_calls (add_exchange (authBody preferences id) out w) = execute_kw_calls w.
Proof.
  unfold execute_kw_calls. simpl. rewrite filter_app, length_app. simpl. lia.
Qed.

Lemma execute_kw_calls_execute_kw (w : World) (u : json) (model method : string)
    (args : list json) (kwargs : JsObject) (id : Z) (out : FetchOutcome) :
  execute_kw_calls
    (add_exchange (requestBody preferences u model method args kwargs id) out w)
  = S (execute_kw_calls w).
Proof.
  unfold execute_kw_calls. simpl. rewrite filter_app, length_app. simpl. lia.
Qed.

(** With a session cached, [execute] sends its one request and leaves the
    cache alone. *)
Lemma execute_warm_world (w : World) (model method : string) (args : list json)
    (kwargs : JsObject) :
  truthy (uid w) = true ->
  let w' := snd (run (execute preferences model method args kwargs) w) in
  let rq := requestBody preferences (uid w) model method args kwargs (new_id w) in
  uid w' = uid w /\
  toasts w' = toasts w /\
  exchanges w' = (exchanges w ++ [(rq, backend (exchanges w) rq)])%list.
Proof.
  intro H. cbv zeta. rewrite (execute_warm preferences Math_random backend w _ _ _ _ H).
  cbv zeta. destruct (settle _); simpl; auto.
Qed.

Lemma execute_warm_counts (w : World) (model method : string) (args : list json)
    (kwargs : JsObject) :
  truthy (uid w) = true ->
  let w' := snd (run (execute preferences model method args kwargs) w) in
  uid w' = uid w /\
  login_calls w' = login_calls w /\
  execute_kw_calls w' = S (execute_kw_calls w).
Proof.
  intro H.
  destruct (execute_warm_world w model method args kwargs H) as (Hu & _ & Hx).
  cbv zeta. split; [exact Hu |].
  unfold login_calls, execute_kw_calls. rewrite Hx, !filter_app, !length_app.
  simpl. lia.
Qed.

(** With no session cached, [execute] sends exactly one login. *)
Lemma execute_cold_one_login (w : World) (model method : string) (args : list json)
    (kwargs : JsObject) :
  truthy (uid w) = false ->
  login_calls (snd (run (execute preferences model method args kwargs) w))
  = S (login_calls w).
Proof.
  intro H. rewrite (execute_cold preferences Math_random backend w _ _ _ _ H).
  cbv zeta.
  assert (Hone : forall w', exchanges w' =
                   (exchanges w ++ [(authBody preferences (new_id w),
                                     backend (exchanges w)
                                       (authBody preferences (new_id w)))])%list ->
                 login_calls w' = S (login_calls w)).
  { intros w' Hx. unfold login_calls. rewrite Hx, filter_app, length_app.
    simpl. lia. }
  destruct (settle _) as [e | v].
  - now apply Hone.
  - destruct (truthy v) eqn:Hv.
    + match goal with
      | |- context [run _ ?w1] =>
          destruct (execute_warm_counts w1 model method args kwargs Hv) as (_ & Hl & _);
          rewrite Hl
      end.
      now apply Hone.
    + now apply Hone.
Qed.

End SessionFacts.

(** C1. On an instance whose session is cached, two [execute] calls in a
    row send no login at all, whatever their own requests meet, so the login
    that filled the cache stays the only one; after [invalidateAuth] the
    next [execute] sends exactly one login. *)
Theorem session_reuse (preferences : Preferences) (Math_random : nat -> Q)
    (backend : list (Request * FetchOutcome) -> Request -> FetchOutcome)
    (w : World)
    (model1 method1 : string) (args1 : list json) (kwargs1 : JsObject)
    (model2 method2 : string) (args2 : list json) (kwargs2 : JsObject)
    (model3 method3 : string) (args3 : list json) (kwargs3 : JsObject) :
  truthy (uid w) = true ->
  let run {A} (p : Prog A) w := snd (exec Math_random backend p w) in
  let w1 := run (execute preferences model1 method1 args1 kwargs1) w in
  let w2 := run (execute preferences model2 method2 args2 kwargs2) w1 in
  let w3 := run invalidateAuth w2 in
  let w4 := run (execute preferences model3 method3 args3 kwargs3) w3 in
  login_calls w2 = login_calls w /\
  execute_kw_calls w2 = (2 + execute_kw_calls w)%nat /\
  uid w2 = uid w /\
  login_calls w3 = login_calls w /\
  login_calls w4 = S (login_calls w).
Proof.
  intros H run w1 w2 w3 w4.
  destruct (execute_warm_counts preferences Math_random backend
              w model1 method1 args1 kwargs1 H) as (Hu1 & Hl1 & Hk1).
  fold (run _ (execute preferences model1 method1 args1 kwargs1) w) in Hu1, Hl1, Hk1.
  fold w1 in Hu1, Hl1, Hk1.
  assert (H1 : truthy (uid w1) = true) by now rewrite Hu1.
  destruct (execute_warm_counts preferences Math_random backend
              w1 model2 method2 args2 kwargs2 H1) as (Hu2 & Hl2 & Hk2).
  fold (run _ (execute preferences model2 method2 args2 kwargs2) w1) in Hu2, Hl2, Hk2.
  fold w2 in Hu2, Hl2, Hk2.
  assert (Hl3 : login_calls w3 = login_calls w2) by reflexivity.
  repeat split; try congruence.
  - rewrite Hk2, Hk1. reflexivity.
  - subst w4.
    unfold run. rewrite execute_cold_one_login by reflexivity.
    fold (run _ invalidateAuth w2). fold w3. congruence.
Qed.

Lemma session_reuse_witness :
  let run {A} (p : Prog A) w := snd (exec Scenario.half Scenario.backend p w) in
  let w := run (execute Scenario.prefs "project.project" "search_count" [] []) fresh_world in
  let w1 := run (execute Scenario.prefs "project.project" "search_read" [JArr []]
                   Scenario.fields) w in
  let w2 := run (execute Scenario.prefs "helpdesk.team" "search_read" [JArr []]
                   Scenario.fields) w1 in
  let w3 := run invalidateAuth w2 in
  let w4 := run (execute Scenario.prefs "project.project" "search_read" [JArr []]
                   Scenario.fields) w3 in
  truthy (uid w) = true /\
  login_calls w = 1%nat /\
  (login_calls w2 = login_calls w /\
   execute_kw_calls w2 = (2 + execute_kw_calls w)%nat /\
   uid w2 = uid w /\
   login_calls w3 = login_calls w /\
   login_calls w4 = S (login_calls w)).
Proof.
  cbv zeta.
  split; [reflexivity |]. split; [reflexivity |].
  apply (session_reuse Scenario.prefs Scenario.half Scenario.backend
           (snd (exec Scenario.half Scenario.backend
                   (execute Scenario.prefs "project.project" "search_count" [] [])
                   fresh_world))).
  reflexivity.
Defined.

(** ** The service: failures *)

Lemma settle_bad_status (r : HttpResponse) :
  ok r = false -> settle (Responded r) = inl (http_error r).
Proof. intro H. unfold settle. now rewrite H. Qed.

Lemma settle_value_ok (r : HttpResponse) (v : json) :
  settle (Responded r) = inr v -> ok r = true.
Proof.
  unfold settle. destruct (ok r); [reflexivity | discriminate].
Qed.

(** C5. With no session cached and a login call that fails (rejection, bad
    status, undecodable body or [error] envelope), [authenticate] yields
    [null] and leaves the cache as it was, and [execute] returns [null]
    after that one login, without sending [execute_kw]; one failure toast is
    shown, and the next [execute] sends a login again. *)
Theorem failed_login_short_circuit (preferences : Preferences) (Math_random : nat -> Q)
    (backend : list (Request * FetchOutcome) -> Request -> FetchOutcome)
    (w : World) (model method : string) (args : list json) (kwargs : JsObject) :
  truthy (uid w) = false ->
  login_fails (backend (exchanges w) (authBody preferences (next_id Math_random w))) = true ->
  let a := exec Math_random backend (authenticate preferences) w in
  let e := exec Math_random backend (execute preferences model method args kwargs) w in
  fst a = Returned JNull /\
  uid (snd a) = uid w /\
  fst e = Returned JNull /\
  uid (snd e) = uid w /\
  execute_kw_calls (snd e) = execute_kw_calls w /\
  login_calls (snd e) = S (login_calls w) /\
  List.length (toasts (snd e)) = S (List.length (toasts w)) /\
  login_calls (snd (exec Math_random backend
                      (execute preferences model method args kwargs) (snd e)))
  = S (S (login_calls w)).
Proof.
  intros Hcold Hfail a e.
  assert (He : e = (Returned JNull,
                    add_toast (auth_toast
                                 match settle (backend (exchanges w)
                                                 (authBody preferences (next_id Math_random w)))
                                 with inl err => err | inr _ => ErrorObj "" end)
                      (add_console "Authentication error:"
                         match settle (backend (exchanges w)
                                         (authBody preferences (next_id Math_random w)))
                         with inl err => err | inr _ => ErrorObj "" end
                         (add_exchange (authBody preferences (next_id Math_random w))
                            (backend (exchanges w)
                               (authBody preferences (next_id Math_random w)))
                            (next_draw w))))).
  { subst e. rewrite (execute_cold _ _ _ _ _ _ _ _ Hcold). cbv zeta.
    unfold login_fails in Hfail. destruct (settle _) as [err | v]; [| discriminate].
    reflexivity. }
  assert (Ha : a = e).
  { rewrite He. subst a. rewrite (authenticate_cold _ _ _ _ Hcold). cbv zeta.
    unfold login_fails in Hfail. destruct (settle _) as [err | v]; [| discriminate].
    reflexivity. }
  assert (Hl : login_calls (snd e) = S (login_calls w)).
  { rewrite He. unfold login_calls. simpl. rewrite filter_app, length_app. simpl. lia. }
  assert (Hu : uid (snd e) = uid w) by (rewrite He; reflexivity).
  rewrite Ha.
  rewrite execute_cold_one_login by (rewrite Hu; exact Hcold).
  rewrite Hl. rewrite He. simpl. repeat split.
  - unfold execute_kw_calls. simpl. rewrite filter_app, length_app. simpl. lia.
  - rewrite length_app. simpl. lia.
Qed.

Lemma failed_login_short_circuit_witness :
  let a := exec Scenario.half InvalidCredentials.backend
             (authenticate Scenario.prefs) fresh_world in
  let e := exec Scenario.half InvalidCredentials.backend
             (execute Scenario.prefs "project.project" "search_read" [JArr []]
                Scenario.fields) fresh_world in
  truthy (uid fresh_world) = false /\
  login_fails (InvalidCredentials.backend (exchanges fresh_world)
                 (authBody Scenario.prefs (next_id Scenario.half fresh_world))) = true /\
  (fst a = Returned JNull /\
   uid (snd a) = uid fresh_world /\
   fst e = Returned JNull /\
   uid (snd e) = uid fresh_world /\
   execute_kw_calls (snd e) = execute_kw_calls fresh_world /\
   login_calls (snd e) = S (login_calls fresh_world) /\
   List.length (toasts (snd e)) = S (List.length (toasts fresh_world)) /\
   login_calls (snd (exec Scenario.half InvalidCredentials.backend
                       (execute Scenario.prefs "project.project" "search_read" [JArr []]
                          Scenario.fields) (snd e)))
   = S (S (login_calls fresh_world))).
Proof.
  cbv zeta. split; [reflexivity |]. split; [reflexivity |].
  apply (failed_login_short_circuit Scenario.prefs Scenario.half
           InvalidCredentials.backend fresh_world); reflexivity.
Defined.

(** [searchRead] turns what [execute] gives into a list, and a throw into
    a toast and the empty list. *)
Lemma searchRead_run (preferences : Preferences) (Math_random : nat -> Q)
    (backend : list (Request * FetchOutcome) -> Request -> FetchOutcome)
    (w : World) (model : string) (domain : list json) (options : JsObject) :
  exec Math_random backend (searchRead preferences model domain options) w =
  match exec Math_random backend
          (execute preferences model "search_read" [JArr domain] options) w with
  | (Returned v, w') => (Returned (if truthy v then v else JArr []), w')
  | (Threw e, w') =>
      (Returned (JArr []),
       add_toast (search_toast model e)
         (add_console ("Error searching " ++ model ++ ":") e w'))
  end.
Proof.
  unfold searchRead. rewrite exec_try_catch, exec_bind.
  destruct (exec _ _ (execute _ _ _ _ _) w) as [[v | e] w']; reflexivity.
Qed.

Lemma new_exchanges_app (w w' : World) (new : list (Request * FetchOutcome)) :
  exchanges w' = (exchanges w ++ new)%list -> new_exchanges w w' = new.
Proof.
  intro H. unfold new_exchanges. rewrite H, skipn_app, skipn_all, Nat.sub_diag.
  reflexivity.
Qed.

(** C4. Whenever a response met during [searchByName] (to the login or to
    [execute_kw]) has a status outside 200..299, the call returns the empty
    list instead of throwing, and exactly one failure toast is added, with
    the status in its message. *)
Theorem error_degradation (preferences : Preferences) (Math_random : nat -> Q)
    (backend : list (Request * FetchOutcome) -> Request -> FetchOutcome)
    (w : World) (model query : string) (options : JsObject)
    (rq : Request) (r : HttpResponse) :
  let res := exec Math_random backend (searchByName preferences model query options) w in
  In (rq, Responded r) (new_exchanges w (snd res)) ->
  ok r = false ->
  fst res = Returned (JArr []) /\
  exists t, toasts (snd res) = (toasts w ++ [t])%list /\
            style t = Failure /\
            message t = "HTTP error! status: " ++ string_of_Z (status r).
Proof.
  intros res Hin Hbad. subst res. unfold searchByName in *.
  rewrite searchRead_run in *.
  set (domain := name_domain query) in *.
  set (kwargs := obj_set "domain" (JArr domain) options) in *.
  destruct (truthy (uid w)) eqn:Hw.
  - (* a session is cached: the one response is to execute_kw *)
    rewrite (execute_warm _ _ _ _ _ _ _ _ Hw) in *. cbv zeta in *.
    set (rq1 := requestBody _ _ _ _ _ _ _) in *.
    set (out1 := backend (exchanges w) rq1) in *.
    destruct (settle out1) as [e | v] eqn:Hs.
    + rewrite (new_exchanges_app w _ [(rq1, out1)]) in Hin by reflexivity.
      destruct Hin as [Heq | []].
      assert (Hout : out1 = Responded r) by exact (f_equal snd Heq).
      rewrite Hout, (settle_bad_status r Hbad) in Hs. inversion Hs; subst e.
      split; [reflexivity |].
      eexists. split; [reflexivity |]. split; reflexivity.
    + rewrite (new_exchanges_app w _ [(rq1, out1)]) in Hin
        by (destruct (truthy v); reflexivity).
      destruct Hin as [Heq | []].
      assert (Hout : out1 = Responded r) by exact (f_equal snd Heq).
      rewrite Hout, (settle_bad_status r Hbad) in Hs. discriminate.
  - (* no session: the login comes first *)
    rewrite (execute_cold _ _ _ _ _ _ _ _ Hw) in *. cbv zeta in *.
    set (rq0 := authBody _ _) in *.
    set (out0 := backend (exchanges w) rq0) in *.
    destruct (settle out0) as [e | v] eqn:Hs0.
    + rewrite (new_exchanges_app w _ [(rq0, out0)]) in Hin by reflexivity.
      destruct Hin as [Heq | []].
      assert (Hout : out0 = Responded r) by exact (f_equal snd Heq).
      rewrite Hout, (settle_bad_status r Hbad) in Hs0. inversion Hs0; subst e.
      split; [reflexivity |].
      eexists. split; [reflexivity |]. split; reflexivity.
    + assert (Hok0 : forall x, (rq0, out0) = (x, Responded r) -> False).
      { intros x Heq.
        assert (Hout : out0 = Responded r) by exact (f_equal snd Heq).
        rewrite Hout in Hs0. apply settle_value_ok in Hs0. congruence. }
      destruct (truthy v) eqn:Hv.
      * set (w1 := set_uid v (add_exchange rq0 out0 (next_draw w))) in *.
        rewrite (execute_warm _ _ _ w1 _ _ _ _ Hv) in *. cbv zeta in *.
        set (rq1 := requestBody _ _ _ _ _ _ _) in *.
        set (out1 := backend (exchanges w1) rq1) in *.
        assert (Hnew : forall w', exchanges w' = (exchanges w1 ++ [(rq1, out1)])%list ->
                       new_exchanges w w' = [(rq0, out0); (rq1, out1)]).
        { intros w' Hx. apply new_exchanges_app. rewrite Hx. simpl.
          now rewrite <- app_assoc. }
        destruct (settle out1) as [e | v1] eqn:Hs1.
        -- rewrite Hnew in Hin by reflexivity.
           destruct Hin as [Heq | [Heq | []]]; [destruct (Hok0 _ Heq) |].
           assert (Hout : out1 = Responded r) by exact (f_equal snd Heq).
           rewrite Hout, (settle_bad_status r Hbad) in Hs1. inversion Hs1; subst e.
           split; [reflexivity |].
           eexists. split; [reflexivity |]. split; reflexivity.
        -- rewrite Hnew in Hin by (destruct (truthy v1); reflexivity).
           destruct Hin as [Heq | [Heq | []]]; [destruct (Hok0 _ Heq) |].
           assert (Hout : out1 = Responded r) by exact (f_equal snd Heq).
           rewrite Hout, (settle_bad_status r Hbad) in Hs1. discriminate.
      * rewrite (new_exchanges_app w _ [(rq0, out0)]) in Hin by reflexivity.
        destruct Hin as [Heq | []]. destruct (Hok0 _ Heq).
Qed.

Lemma error_degradation_witness :
  let res := exec Scenario.half ServerError.backend
               (searchByName Scenario.prefs "project.project" "web" Scenario.fields)
               fresh_world in
  let rq := requestBody Scenario.prefs (JNum 7) "project.project" "search_read"
              [JArr (name_domain "web")]
              (obj_set "domain" (JArr (name_domain "web")) Scenario.fields) 500000 in
  In (rq, Responded ServerError.internal_error) (new_exchanges fresh_world (snd res)) /\
  ok ServerError.internal_error = false /\
  (fst res = Returned (JArr []) /\
   exists t, toasts (snd res) = (toasts fresh_world ++ [t])%list /\
             style t = Failure /\
             message t = "HTTP error! status: "
                         ++ string_of_Z (status ServerError.internal_error)).
Proof.
  cbv zeta.
  assert (Hin : In (requestBody Scenario.prefs (JNum 7) "project.project" "search_read"
                      [JArr (name_domain "web")]
                      (obj_set "domain" (JArr (name_domain "web")) Scenario.fields) 500000,
                    Responded ServerError.internal_error)
                  (new_exchanges fresh_world
                     (snd (exec Scenario.half ServerError.backend
                             (searchByName Scenario.prefs "project.project" "web"
                                Scenario.fields) fresh_world)))).
  { right. left. reflexivity. }
  split; [exact Hin |]. split; [reflexivity |].
  exact (error_degradation Scenario.prefs Scenario.half ServerError.backend fresh_world
           "project.project" "web" Scenario.fields _ _ Hin eq_refl).
Defined.

(** ** The service: telling failures apart *)




(** The login goes through the same checks; there the failure is caught,
    shown in a toast with the same message, and [null] comes back. *)
Lemma login_discrimination (preferences : Preferences) (Math_random : nat -> Q)
    (backend : list (Request * FetchOutcome) -> Request -> FetchOutcome)
    (w : World) (r : HttpResponse) :
  truthy (uid w) = false ->
  backend (exchanges w) (authBody preferences (next_id Math_random w)) = Responded r ->
  ok r = false ->
  let res := exec Math_random backend (authenticate preferences) w in
  fst res = Returned JNull /\
  toasts (snd res) =
  (toasts w ++ [{| style := Failure; title := "Authentication Error";
                   message := "HTTP error! status: " ++ string_of_Z (status r) |}])%list.
Proof.
  intros Hw Hr Hbad res. subst res.
  rewrite (authenticate_cold _ _ _ _ Hw). cbv zeta.
  rewrite Hr, (settle_bad_status r Hbad). split; reflexivity.
Qed.

(** ** The query helpers: what goes on the wire *)

Lemma obj_get_set_same (k : string) (v : json) (o : JsObject) :
  obj_get k (obj_set k v o) = Some v.
Proof.
  induction o as [| [k' v'] rest IH]; cbn [obj_set obj_get].
  - now rewrite String.eqb_refl.
  - destruct (String.eqb k k') eqn:E; cbn [obj_set obj_get]; rewrite E;
      [reflexivity | exact IH].
Qed.

Section HelperFacts.

Variable preferences : Preferences.
Variable Math_random : nat -> Q.
Variable backend : list (Request * FetchOutcome) -> Request -> FetchOutcome.

Local Abbreviation run := (exec Math_random backend).

(** Every [execute_kw] request sent by [execute] carries the call it was
    given, whether or not a login came first. *)
Lemma execute_requests (w : World) (model method : string) (args : list json)
    (kwargs : JsObject) (x : Request * FetchOutcome) :
  In x (new_exchanges w (snd (run (execute preferences model method args kwargs) w))) ->
  is_execute_kw x = true ->
  call_part (fst x) = [JStr model; JStr method; JArr args; JObj kwargs].
Proof.
  intros Hin Hkw.
  destruct (truthy (uid w)) eqn:Hw.
  - destruct (execute_warm_world preferences Math_random backend
                w model method args kwargs Hw) as (_ & _ & Hx).
    rewrite (new_exchanges_app _ _ _ Hx) in Hin.
    destruct Hin as [<- | []]. reflexivity.
  - rewrite (execute_cold _ _ _ _ _ _ _ _ Hw) in Hin. cbv zeta in Hin.
    set (rq0 := authBody _ _) in *.
    set (out0 := backend (exchanges w) rq0) in *.
    assert (Hlogin : x = (rq0, out0) -> False).
    { intros ->. discriminate Hkw. }
    destruct (settle out0) as [e | v].
    + rewrite (new_exchanges_app w _ [(rq0, out0)]) in Hin by reflexivity.
      destruct Hin as [Heq | []]. now destruct Hlogin.
    + destruct (truthy v) eqn:Hv.
      * set (w1 := set_uid v (add_exchange rq0 out0 (next_draw w))) in *.
        destruct (execute_warm_world preferences Math_random backend
                    w1 model method args kwargs Hv) as (_ & _ & Hx).
        rewrite (new_exchanges_app w _ ((rq0, out0) :: [_])) in Hin
          by (rewrite Hx; simpl; rewrite <- app_assoc; reflexivity).
        destruct Hin as [Heq | [<- | []]]; [now destruct Hlogin | reflexivity].
      * rewrite (new_exchanges_app w _ [(rq0, out0)]) in Hin by reflexivity.
        destruct Hin as [Heq | []]. now destruct Hlogin.
Qed.

Lemma searchRead_exchanges (w : World) (model : string) (domain : list json)
    (options : JsObject) :
  exchanges (snd (run (searchRead preferences model domain options) w)) =
  exchanges (snd (run (execute preferences model "search_read" [JArr domain] options) w)).
Proof.
  rewrite searchRead_run.
  destruct (exec _ _ (execute _ _ _ _ _) w) as [[v | e] w']; reflexivity.
Qed.

Lemma searchRead_requests (w : World) (model : string) (domain : list json)
    (options : JsObject) (x : Request * FetchOutcome) :
  In x (new_exchanges w (snd (run (searchRead preferences model domain options) w))) ->
  is_execute_kw x = true ->
  call_part (fst x) = [JStr model; JStr "search_read"; JArr [JArr domain]; JObj options].
Proof.
  unfold new_exchanges. rewrite searchRead_exchanges. apply execute_requests.
Qed.

(** With a session cached, [searchRead] sends exactly one request. *)
Lemma searchRead_warm_one (w : World) (model : string) (domain : list json)
    (options : JsObject) :
  truthy (uid w) = true ->
  exists out,
    new_exchanges w (snd (run (searchRead preferences model domain options) w)) =
    [(requestBody preferences (uid w) model "search_read" [JArr domain] options
        (next_id Math_random w), out)].
Proof.
  intro Hw. unfold new_exchanges. rewrite searchRead_exchanges.
  destruct (execute_warm_world preferences Math_random backend
              w model "search_read" [JArr domain] options Hw) as (_ & _ & Hx).
  eexists. apply new_exchanges_app. exact Hx.
Qed.

(** The spread in [searchByName] puts the predicate among the options. *)
Lemma searchByName_options (model query : string) (options : JsObject) :
  searchByName preferences model query options =
  searchRead preferences model (name_domain query)
    (obj_set "domain" (JArr (name_domain query)) options) /\
  obj_get "domain" (obj_set "domain" (JArr (name_domain query)) options)
  = Some (JArr (name_domain query)).
Proof.
  split; [reflexivity | apply obj_get_set_same].
Qed.

End HelperFacts.

(** C6, at the input [searchByName("project.project", "web", { fields })]
    with session 7 cached: the one request sent carries the predicate as its
    positional argument and carries it again under the key [domain] of the
    options, which are therefore not [{ fields }]. *)
Theorem searchByName_sends_domain_twice :
  map (fun x => call_part (fst x))
      (new_exchanges Scenario.logged_in
         (snd (exec Scenario.half Scenario.backend
                 (searchByName Scenario.prefs "project.project" "web" Scenario.fields)
                 Scenario.logged_in)))
  = [[JStr "project.project"; JStr "search_read";
      JArr [JArr (name_domain "web")];
      JObj [("fields", JArr [JStr "id"; JStr "name"; JStr "display_name"]);
            ("domain", JArr (name_domain "web"))]]].
Proof. reflexivity. Qed.

(** The same search sent by the earlier projects view, and the listing sent
    by [getAll]: the options hold no [domain] there. *)
Lemma sibling_searches_send_no_domain :
  map (fun x => call_part (fst x))
      (filter is_execute_kw
         (new_exchanges fresh_world
            (snd (exec Scenario.half Scenario.backend
                    (perform Scenario.prefs (LegacyProjects.ask_search "web"))
                    fresh_world))))
  = [[JStr "project.project"; JStr "search_read";
      JArr [JArr (name_domain "web")];
      JObj (fields_option LegacyProjects.project_fields)]] /\
  map (fun x => call_part (fst x))
      (new_exchanges Scenario.logged_in
         (snd (exec Scenario.half Scenario.backend
                 (perform Scenario.prefs SearchProjects.ask_all)
                 Scenario.logged_in)))
  = [[JStr "project.project"; JStr "search_read"; JArr [JArr []];
      JObj (fields_option SearchProjects.project_fields ++ [("limit", JNum 100)])]].
Proof. split; reflexivity. Qed.

(** The scenario of the specification: the search for "web" gives the one
    project, with a single login; the listing that follows sends no other. *)
Lemma scenario_search_then_list :
  let searched := exec Scenario.half Scenario.backend
                    (searchByName Scenario.prefs "project.project" "web" Scenario.fields)
                    fresh_world in
  let listed := exec Scenario.half Scenario.backend
                  (getAll Scenario.prefs "project.project" (Some Scenario.fields))
                  (snd searched) in
  fst searched = Returned (JArr [Scenario.project_12]) /\
  login_calls (snd searched) = 1%nat /\
  login_calls (snd listed) = 1%nat /\
  execute_kw_calls (snd listed) = 2%nat.
Proof. repeat split. Qed.

(** C7, as stated, fails when the caller passes the cap 0: the options sent
    carry 100. *)
Lemma getAll_cap_counterexample :
  map (fun x => call_part (fst x))
      (new_exchanges Scenario.logged_in
         (snd (exec Scenario.half Scenario.backend
                 (getAll Scenario.prefs "project.project"
                    (Some (list_options [JStr "id"] (Some 0))))
                 Scenario.logged_in)))
  = [[JStr "project.project"; JStr "search_read"; JArr [JArr []];
      JObj [("fields", JArr [JStr "id"]); ("limit", JNum 100)]]] /\
  JNum 100 <> JNum 0.
Proof. split; [reflexivity | discriminate]. Qed.

(** C7, amended. [getAll] goes through [searchRead], as [searchByName]
    does, with the empty predicate and the options [{ fields, limit: cap }],
    where [cap] is the caller's limit when one is passed and is not 0, and
    100 otherwise; every [execute_kw] request it sends carries exactly that. *)
Theorem getAll_shape (preferences : Preferences) (Math_random : nat -> Q)
    (backend : list (Request * FetchOutcome) -> Request -> FetchOutcome)
    (w : World) (model : string) (fields : list json) (limit : option Z)
    (x : Request * FetchOutcome) :
  let cap := match limit with
             | Some l => if l =? 0 then 100 else l
             | None => 100
             end in
  let call := getAll preferences model (Some (list_options fields limit)) in
  call = searchRead preferences model [] [("fields", JArr fields); ("limit", JNum cap)] /\
  (In x (new_exchanges w (snd (exec Math_random backend call w))) ->
   is_execute_kw x = true ->
   call_part (fst x) =
   [JStr model; JStr "search_read"; JArr [JArr []];
    JObj [("fields", JArr fields); ("limit", JNum cap)]]).
Proof.
  intros cap call.
  assert (Hcall : call = searchRead preferences model []
                           [("fields", JArr fields); ("limit", JNum cap)]).
  { subst call cap. unfold getAll, list_options.
    destruct limit as [l |]; simpl; [| reflexivity].
    destruct (l =? 0); reflexivity. }
  split; [exact Hcall |].
  rewrite Hcall. apply searchRead_requests.
Qed.

Lemma getAll_shape_witness :
  let call := getAll Scenario.prefs "project.project"
                (Some (list_options [JStr "id"] (Some 25))) in
  let x := (requestBody Scenario.prefs (JNum 7) "project.project" "search_read"
              [JArr []] [("fields", JArr [JStr "id"]); ("limit", JNum 25)] 500000,
            Scenario.reply (JArr [Scenario.project_12])) in
  In x (new_exchanges Scenario.logged_in
          (snd (exec Scenario.half Scenario.backend call Scenario.logged_in))) /\
  is_execute_kw x = true /\
  call_part (fst x) =
  [JStr "project.project"; JStr "search_read"; JArr [JArr []];
   JObj [("fields", JArr [JStr "id"]); ("limit", JNum 25)]].
Proof.
  cbv zeta.
  assert (Hin : In (requestBody Scenario.prefs (JNum 7) "project.project" "search_read"
                      [JArr []] [("fields", JArr [JStr "id"]); ("limit", JNum 25)] 500000,
                    Scenario.reply (JArr [Scenario.project_12]))
                  (new_exchanges Scenario.logged_in
                     (snd (exec Scenario.half Scenario.backend
                             (getAll Scenario.prefs "project.project"
                                (Some (list_options [JStr "id"] (Some 25))))
                             Scenario.logged_in)))).
  { left. reflexivity. }
  split; [exact Hin |]. split; [reflexivity |].
  exact (proj2 (getAll_shape Scenario.prefs Scenario.half Scenario.backend
                  Scenario.logged_in "project.project" [JStr "id"] (Some 25) _)
               Hin eq_refl).
Defined.

(** C10. When the caller passes [limit: 0], [getAll] goes through
    [searchRead] with that limit replaced by 100, and every [execute_kw]
    request it sends carries options whose limit is 100, not 0: the default
    is taken whenever the limit is falsy. *)
Theorem zero_limit_coercion (preferences : Preferences) (Math_random : nat -> Q)
    (backend : list (Request * FetchOutcome) -> Request -> FetchOutcome)
    (w : World) (model : string) (options : JsObject) (x : Request * FetchOutcome) :
  obj_get "limit" options = Some (JNum 0) ->
  let sent := obj_set "limit" (JNum 100) options in
  let call := getAll preferences model (Some options) in
  call = searchRead preferences model [] sent /\
  obj_get "limit" sent = Some (JNum 100) /\
  (In x (new_exchanges w (snd (exec Math_random backend call w))) ->
   is_execute_kw x = true ->
   call_part (fst x) = [JStr model; JStr "search_read"; JArr [JArr []]; JObj sent]).
Proof.
  intros Hzero sent call.
  assert (Hcall : call = searchRead preferences model [] sent).
  { subst call sent. unfold getAll. now rewrite Hzero. }
  split; [exact Hcall |]. split; [apply obj_get_set_same |].
  rewrite Hcall. apply searchRead_requests.
Qed.

Lemma zero_limit_coercion_witness :
  let options := [("fields", JArr [JStr "id"]); ("limit", JNum 0)] in
  let sent := [("fields", JArr [JStr "id"]); ("limit", JNum 100)] in
  let call := getAll Scenario.prefs "helpdesk.team" (Some options) in
  let x := (requestBody Scenario.prefs (JNum 7) "helpdesk.team" "search_read"
              [JArr []] sent 500000,
            Scenario.reply (JArr [Scenario.project_12])) in
  obj_get "limit" options = Some (JNum 0) /\
  In x (new_exchanges Scenario.logged_in
          (snd (exec Scenario.half Scenario.backend call Scenario.logged_in))) /\
  is_execute_kw x = true /\
  call_part (fst x) =
  [JStr "helpdesk.team"; JStr "search_read"; JArr [JArr []]; JObj sent].
Proof.
  cbv zeta.
  assert (Hin : In (requestBody Scenario.prefs (JNum 7) "helpdesk.team" "search_read"
                      [JArr []] [("fields", JArr [JStr "id"]); ("limit", JNum 100)] 500000,
                    Scenario.reply (JArr [Scenario.project_12]))
                  (new_exchanges Scenario.logged_in
                     (snd (exec Scenario.half Scenario.backend
                             (getAll Scenario.prefs "helpdesk.team"
                                (Some [("fields", JArr [JStr "id"]); ("limit", JNum 0)]))
                             Scenario.logged_in)))).
  { left. reflexivity. }
  split; [reflexivity |]. split; [exact Hin |]. split; [reflexivity |].
  exact (proj2 (proj2 (zero_limit_coercion Scenario.prefs Scenario.half Scenario.backend
                         Scenario.logged_in "helpdesk.team"
                         [("fields", JArr [JStr "id"]); ("limit", JNum 0)] _ eq_refl))
               Hin eq_refl).
Defined.

(** ** Correlation identifiers *)

Section InFlight.

Variable preferences : Preferences.
Variable Math_random : nat -> Q.

(** Started with a session cached, [execute] draws one number and waits on
    its request. *)
Lemma start_execute_warm (s : Sched json) (model method : string)
    (args : list json) (kwargs : JsObject) :
  truthy (uid (world s)) = true ->
  exists k,
    start Math_random (execute preferences model method args kwargs) s =
    {| world := next_draw (world s);
       in_flight := (in_flight s ++
                     [(requestBody preferences (uid (world s)) model method args kwargs
                         (next_id Math_random (world s)), k)])%list;
       settled := settled s |}.
Proof.
  intro H. unfold start, execute, authenticate. simpl. rewrite H. simpl. rewrite H.
  simpl. eexists. reflexivity.
Qed.

(** Started with no session, [execute] draws one number and waits on the
    login. *)
Lemma start_execute_cold (s : Sched json) (model method : string)
    (args : list json) (kwargs : JsObject) :
  truthy (uid (world s)) = false ->
  exists k,
    start Math_random (execute preferences model method args kwargs) s =
    {| world := next_draw (world s);
       in_flight := (in_flight s ++
                     [(authBody preferences (next_id Math_random (world s)), k)])%list;
       settled := settled s |}.
Proof.
  intro H. unfold start, execute, authenticate. simpl. rewrite H.
  simpl. eexists. reflexivity.
Qed.

End InFlight.

(** Two calls started on a new instance both log in: the cache is filled
    only when an answer arrives. Once both logins are answered, both calls
    wait on their own [execute_kw]. *)
Lemma two_cold_calls_two_logins :
  let call := getAll Scenario.prefs "project.project" (Some Scenario.fields) in
  let s := start Scenario.half call (start Scenario.half call (idle fresh_world)) in
  let s' := deliver Scenario.half 0 (Scenario.reply (JNum 7))
              (deliver Scenario.half 0 (Scenario.reply (JNum 7)) s) in
  map (fun p => rq_method (fst p)) (in_flight s) = ["login"; "login"] /\
  map (fun p => rq_method (fst p)) (in_flight s') = ["execute_kw"; "execute_kw"] /\
  uid (world s') = JNum 7 /\
  login_calls (world s') = 2%nat.
Proof. repeat split. Qed.

(** C9, as stated, fails: with a random source that repeats itself, two
    calls in flight together carry the same identifier. *)
Lemma correlation_id_counterexample :
  List.length (in_flight Scenario.two_in_flight) = 2%nat /\
  map (fun p => rq_id (fst p)) (in_flight Scenario.two_in_flight) = [500000; 500000] /\
  settled Scenario.two_in_flight = [].
Proof. repeat split. Qed.

(** Freshness of identifiers goes through sequencing and [try]/[catch]. *)
Lemma ids_fresh_bind {A B} (p : Prog A) (f : A -> Prog B) :
  (forall a, ids_fresh (f a)) ->
  (ids_fresh p -> ids_fresh (bind p f)) /\
  (forall rq k, p = Fetch rq k -> (forall out, ids_fresh (k out)) ->
                forall out, ids_fresh (bind (k out) f)).
Proof.
  intro Hf.
  induction p as [o | k IH | v k IH | t k IH | l e k IH | k IH | rq k IH].
  - split; [| discriminate]. intros _. destruct o as [a | e]; [apply Hf | exact I].
  - split; [| discriminate]. cbn. intros H v. now apply IH.
  - split; [| discriminate]. cbn. now apply IH.
  - split; [| discriminate]. cbn. now apply IH.
  - split; [| discriminate]. cbn. now apply IH.
  - split; [| discriminate]. cbn. intros H r. specialize (H r).
    destruct (k r) as [| | | | | | rq k'] eqn:E; try contradiction.
    cbn. destruct H as [Hid Hk]. split; [exact Hid |].
    destruct (IH r) as [_ IH2]. exact (IH2 rq k' E Hk).
  - split; [intros [] |]. intros rq' k' [= <- <-] Hk out. now apply IH.
Qed.

Lemma ids_fresh_try_catch {A} (p : Prog A) (h : Thrown -> Prog A) :
  (forall e, ids_fresh (h e)) ->
  (ids_fresh p -> ids_fresh (try_catch p h)) /\
  (forall rq k, p = Fetch rq k -> (forall out, ids_fresh (k out)) ->
                forall out, ids_fresh (try_catch (k out) h)).
Proof.
  intro Hh.
  induction p as [o | k IH | v k IH | t k IH | l e k IH | k IH | rq k IH].
  - split; [| discriminate]. intros _. destruct o as [a | e]; [exact I | apply Hh].
  - split; [| discriminate]. cbn. intros H v. now apply IH.
  - split; [| discriminate]. cbn. now apply IH.
  - split; [| discriminate]. cbn. now apply IH.
  - split; [| discriminate]. cbn. now apply IH.
  - split; [| discriminate]. cbn. intros H r. specialize (H r).
    destruct (k r) as [| | | | | | rq k'] eqn:E; try contradiction.
    cbn. destruct H as [Hid Hk]. split; [exact Hid |].
    destruct (IH r) as [_ IH2]. exact (IH2 rq k' E Hk).
  - split; [intros [] |]. intros rq' k' [= <- <-] Hk out. now apply IH.
Qed.

(** A draw, then the request that carries it. *)
Lemma draw_fetch_fresh {A} (request : Z -> Request) (g : HttpResponse -> Prog A) :
  (forall id, rq_id (request id) = id) ->
  (forall response, ids_fresh (g response)) ->
  ids_fresh (id <- random_id ;; response <- fetch (request id) ;; g response).
Proof.
  intros Hid Hg. cbn. intro r. split; [apply Hid |].
  intros [msg | response]; cbn; [exact I | apply Hg].
Qed.

Lemma checked_data_fresh (response : HttpResponse) : ids_fresh (checked_data response).
Proof.
  unfold checked_data, response_json.
  destruct (negb (ok response)); [exact I |].
  destruct (body response) as [msg | data]; cbn; [exact I |].
  destruct (error data); exact I.
Qed.

Section FreshIds.

Variable preferences : Preferences.

Lemma authenticate_fresh : ids_fresh (authenticate preferences).
Proof.
  unfold authenticate. cbn [bind readUid ret]. cbn [ids_fresh]. intro cached.
  destruct (truthy cached); [exact I |].
  apply ids_fresh_try_catch; [intro e; exact I |].
  apply (draw_fetch_fresh (authBody preferences)); [reflexivity |].
  intro response. apply ids_fresh_bind; [| apply checked_data_fresh].
  intros data v. exact I.
Qed.

Lemma execute_fresh (model method : string) (args : list json) (kwargs : JsObject) :
  ids_fresh (execute preferences model method args kwargs).
Proof.
  unfold execute.
  apply ids_fresh_try_catch; [intro e; exact I |].
  apply ids_fresh_bind; [| apply authenticate_fresh].
  intro u. destruct (negb (truthy u)); [exact I |].
  apply (draw_fetch_fresh (requestBody preferences u model method args kwargs));
    [reflexivity |].
  intro response. apply ids_fresh_bind; [| apply checked_data_fresh].
  intro data. exact I.
Qed.

Lemma searchRead_fresh (model : string) (domain : list json) (options : JsObject) :
  ids_fresh (searchRead preferences model domain options).
Proof.
  unfold searchRead.
  apply ids_fresh_try_catch; [intro e; exact I |].
  apply ids_fresh_bind; [| apply execute_fresh].
  intro v. exact I.
Qed.

Lemma inline_search_read_fresh (model : string) (domain : list json)
    (kwargs : JsObject) :
  ids_fresh (inline_search_read preferences model domain kwargs).
Proof.
  unfold inline_search_read.
  apply ids_fresh_try_catch; [intro e; exact I |].
  apply ids_fresh_bind.
  - intro u. destruct (negb (truthy u)); [exact I |].
    apply (draw_fetch_fresh
             (requestBody preferences u model "search_read" [JArr domain] kwargs));
      [reflexivity |].
    intro response. apply ids_fresh_bind; [| apply checked_data_fresh].
    intro data. exact I.
  - unfold inline_authenticate.
    apply ids_fresh_try_catch; [intro e; exact I |].
    apply (draw_fetch_fresh (authBody preferences)); [reflexivity |].
    intro response. apply ids_fresh_bind; [| apply checked_data_fresh].
    intro data. exact I.
Qed.

Lemma perform_fresh (q : Query) : ids_fresh (perform preferences q).
Proof.
  destruct q; cbn [perform].
  - apply searchRead_fresh.
  - apply searchRead_fresh.
  - apply inline_search_read_fresh.
Qed.

End FreshIds.

Lemma remove_nth_map {X Y} (f : X -> Y) (n : nat) (l : list X) :
  map f (remove_nth n l) = remove_nth n (map f l).
Proof.
  revert n. induction l as [| x l IH]; intros [| n]; cbn; try reflexivity.
  now rewrite IH.
Qed.

Lemma remove_nth_In {X} (n : nat) (l : list X) (x : X) :
  In x (remove_nth n l) -> In x l.
Proof.
  revert n. induction l as [| y l IH]; intros [| n]; cbn; auto.
  intros [-> | H]; [now left | right; eauto].
Qed.

Lemma remove_nth_NoDup {X} (n : nat) (l : list X) :
  NoDup l -> NoDup (remove_nth n l).
Proof.
  revert n. induction l as [| y l IH]; intros [| n] H; cbn; auto.
  - now inversion H.
  - inversion H as [| ? ? Hy Hl]. constructor; [| now apply IH].
    intro Hin. apply Hy. eapply remove_nth_In; eassumption.
Qed.

Section OwnDraws.

Variable preferences : Preferences.
Variable Math_random : nat -> Q.

(** Run to its next request, a program with fresh identifiers has made no
    draw, or one, and then waits on the request carrying it. *)
Lemma run_to_fetch_fresh {A} (p : Prog A) (w : World) :
  ids_fresh p ->
  match run_to_fetch Math_random p w with
  | (w', inl _) => draws w' = draws w
  | (w', inr (rq, k)) =>
      draws w' = S (draws w) /\
      rq_id rq = id_of_draw (Math_random (draws w)) /\
      forall out, ids_fresh (k out)
  end.
Proof.
  revert w. induction p as [o | k IH | v k IH | t k IH | l e k IH | k IH | rq k IH];
    intros w H; cbn [run_to_fetch].
  - reflexivity.
  - apply IH, H.
  - apply (IH (set_uid v w)), H.
  - apply (IH (add_toast t w)), H.
  - apply (IH (add_console l e w)), H.
  - cbn [ids_fresh] in H. specialize (H (Math_random (draws w))).
    destruct (k (Math_random (draws w))) as [| | | | | | rq k']; try contradiction.
    cbn [run_to_fetch]. destruct H as [Hid Hk]. now repeat split.
  - destruct H.
Qed.

Local Abbreviation kept := (draws_kept Math_random).

Lemma park_kept (first : nat) (s : Sched json) (p : Prog json) (w : World) :
  kept first s -> draws w = draws (world s) -> ids_fresh p ->
  kept first (park s (run_to_fetch Math_random p w)).
Proof.
  intros ((ks & Hids & Hnd & Hks) & Hfresh & Hfirst) Hw Hp.
  pose proof (run_to_fetch_fresh p w Hp) as Hrun.
  destruct (run_to_fetch Math_random p w) as [w' [o | [rq k]]]; cbn [park].
  - split; [| split; [exact Hfresh | cbn [world]; lia]].
    exists ks. cbn [world]. split; [exact Hids |]. split; [exact Hnd |].
    rewrite Hrun, Hw. exact Hks.
  - destruct Hrun as (Hd & Hid & Hk).
    split; [| split].
    + exists (ks ++ [draws w])%list. unfold ids_in_flight in *. cbn [in_flight world].
      rewrite !map_app, Hids. cbn [map fst]. rewrite Hid.
      split; [reflexivity |]. split.
      * apply NoDup_app; [exact Hnd | repeat constructor; intros [] |].
        intros k0 Hin [<- | []]. rewrite Forall_forall in Hks.
        specialize (Hks _ Hin). lia.
      * apply Forall_app. split.
        -- eapply Forall_impl; [| exact Hks]. cbn. intros k0 Hk0. lia.
        -- repeat constructor; lia.
    + cbn [in_flight]. apply Forall_app. split; [exact Hfresh |].
      repeat constructor. exact Hk.
    + cbn [world]. lia.
Qed.

Lemma step_kept (first : nat) (st : SchedStep) (s : Sched json) :
  kept first s -> kept first (sched_step preferences Math_random st s).
Proof.
  intro Hs. destruct st as [model method args kwargs | q | n out]; cbn [sched_step].
  - apply park_kept; [exact Hs | reflexivity | apply execute_fresh].
  - apply park_kept; [exact Hs | reflexivity | apply perform_fresh].
  - unfold deliver. destruct (nth_error (in_flight s) n) as [[rq k] |] eqn:E;
      [| exact Hs].
    destruct Hs as ((ks & Hids & Hnd & Hks) & Hfresh & Hfirst).
    apply park_kept; [| reflexivity |].
    + split; [| split; [| exact Hfirst]].
      * exists (remove_nth n ks). unfold ids_in_flight in *. cbn [in_flight world].
        rewrite !remove_nth_map, Hids, <- remove_nth_map.
        split; [reflexivity |]. split; [now apply remove_nth_NoDup |].
        rewrite Forall_forall in *. intros k0 Hk0.
        apply Hks. eapply remove_nth_In; eassumption.
      * cbn [in_flight]. rewrite Forall_forall in *. intros x Hx.
        apply Hfresh. eapply remove_nth_In; eassumption.
    + rewrite Forall_forall in Hfresh.
      exact (Hfresh _ (nth_error_In _ _ E) out).
Qed.

Lemma run_kept (first : nat) (steps : list SchedStep) :
  forall s, kept first s -> kept first (sched_run preferences Math_random steps s).
Proof.
  induction steps as [| st rest IH]; intros s Hs; cbn [sched_run]; [exact Hs |].
  apply IH, step_kept, Hs.
Qed.

Lemma idle_kept (w : World) : kept (draws w) (idle w).
Proof.
  split; [| split; [constructor | cbn; lia]].
  exists []. repeat split; constructor.
Qed.

Lemma run_own_draws (w : World) (steps : list SchedStep) :
  own_draws Math_random (draws w)
    (sched_run preferences Math_random steps (idle w)).
Proof. exact (proj1 (run_kept (draws w) steps (idle w) (idle_kept w))). Qed.

End OwnDraws.

(** C9, amended. Whatever calls are made and whichever requests are
    answered, in any order, every request in flight (login or [execute_kw])
    carries the identifier [floor(r * 1000000)], the product taken as
    doubles, of a draw [r] of [Math.random] made for that request alone: the
    identifiers in flight are those of draws all different from one another.
    Two of them are equal exactly when their two draws give the same
    identifier, which nothing in the code excludes. *)
Theorem correlation_ids (preferences : Preferences) (Math_random : nat -> Q)
    (w : World) (steps : list SchedStep) :
  let s := sched_run preferences Math_random steps (idle w) in
  exists ks,
    map (fun p => rq_id (fst p)) (in_flight s)
    = map (fun k => id_of_draw (Math_random k)) ks /\
    NoDup ks /\
    Forall (fun k => (draws w <= k < draws (world s))%nat) ks.
Proof. cbv zeta. apply run_own_draws. Qed.

(** Two calls made, the second answered, a third made: the two left in
    flight carry the identifiers of draws 0 and 2; on a new instance the
    first request of a call is its login, with the identifier of draw 0. *)
Lemma overlapping_calls_ids :
  ids_in_flight (sched_run Scenario.prefs Overlap.eighths Overlap.steps
                   (idle Scenario.logged_in))
  = [id_of_draw (Overlap.eighths 0); id_of_draw (Overlap.eighths 2)] /\
  map (fun p => (rq_method (fst p), rq_id (fst p)))
      (in_flight (sched_run Scenario.prefs Overlap.eighths
                    [BeginQuery SearchProjects.ask_all] (idle fresh_world)))
  = [("login", id_of_draw (Overlap.eighths 0))] /\
  id_of_draw (5224175567749775 # 18014398509481984) = 290000.
Proof. repeat split. Qed.

(** ** Addresses: the endpoint and the deep links *)

Lemma strip_append_slash (s : string) : strip_trailing_slash (s ++ "/") = s.
Proof.
  induction s as [| c rest IH]; [reflexivity |].
  change (String c rest ++ "/") with (String c (rest ++ "/")).
  cbn [strip_trailing_slash]. rewrite IH.
  destruct rest; reflexivity.
Qed.

Lemma strip_without_slash (s : string) :
  ends_with_slash s = false -> strip_trailing_slash s = s.
Proof.
  induction s as [| c rest IH]; [reflexivity |].
  cbn [strip_trailing_slash ends_with_slash].
  destruct rest as [| c' rest'].
  - now intros ->.
  - intro H. now rewrite (IH H).
Qed.

Lemma string_length_append (s t : string) :
  String.length (s ++ t) = (String.length s + String.length t)%nat.
Proof. induction s as [| c s IH]; simpl; [reflexivity | now rewrite IH]. Qed.

Lemma append_cancel_l (p s t : string) : p ++ s = p ++ t -> s = t.
Proof.
  induction p as [| c p IH]; simpl; [auto |].
  intro H. injection H as H. auto.
Qed.

Lemma append_cancel_r (s t q : string) : s ++ q = t ++ q -> s = t.
Proof.
  revert t. induction s as [| c s IH]; intros [| c' t] H; simpl in H.
  - reflexivity.
  - apply (f_equal String.length) in H. simpl in H.
    rewrite string_length_append in H. lia.
  - apply (f_equal String.length) in H. simpl in H.
    rewrite string_length_append in H. lia.
  - injection H as Hc H. subst c'. f_equal. auto.
Qed.

Lemma string_of_Z_inj (a b : Z) : string_of_Z a = string_of_Z b -> a = b.
Proof.
  unfold string_of_Z. intro H.
  apply DecimalZ.to_int_inj.
  assert (Hgood : forall z, Z.to_int z <> Decimal.Pos Decimal.Nil /\
                            Z.to_int z <> Decimal.Neg Decimal.Nil).
  { intros [| p | p]; simpl; split; try discriminate;
      intros [= E]; now apply DecimalPos.Unsigned.to_uint_nonnil in E. }
  apply (f_equal NilZero.int_of_string) in H.
  rewrite !NilZero.isi in H by apply Hgood.
  now injection H.
Qed.

(** X1. The base URL may be given with or without one slash at its end:
    the endpoint is the same; of two slashes only the last is dropped. *)
Theorem apiUrl_trailing_slash (p : Preferences) (s : string) :
  ends_with_slash s = false ->
  apiUrl (with_url (s ++ "/") p) = s ++ "/jsonrpc" /\
  apiUrl (with_url s p) = s ++ "/jsonrpc" /\
  apiUrl (with_url (s ++ "//") p) = s ++ "//jsonrpc".
Proof.
  intro H. unfold apiUrl, with_url. cbn [odooUrl]. repeat split.
  - now rewrite strip_append_slash.
  - now rewrite strip_without_slash.
  - replace (s ++ "//") with ((s ++ "/") ++ "/").
    + rewrite strip_append_slash.
      clear H. induction s as [| c s IH]; simpl; [reflexivity | now rewrite IH].
    + clear H. induction s as [| c s IH]; simpl; [reflexivity | now rewrite IH].
Qed.

Lemma apiUrl_trailing_slash_witness :
  ends_with_slash "https://example.odoo.com" = false /\
  apiUrl Scenario.prefs = "https://example.odoo.com/jsonrpc".
Proof.
  split; [reflexivity |].
  exact (proj1 (apiUrl_trailing_slash Scenario.prefs "https://example.odoo.com" eq_refl)).
Defined.

(** X2. Two records whose ids are different whole numbers of magnitude up
    to 2^53 never get the same deep link: each of them has a task link, a
    ticket link and a form link, and each link determines the id. *)
Theorem deep_links_distinct (p : Preferences) (model : string) (a b : Z) :
  Z.abs a <= 2 ^ 53 -> Z.abs b <= 2 ^ 53 -> a <> b ->
  (exists ua ub, tasks_url p a = Some ua /\ tasks_url p b = Some ub /\ ua <> ub) /\
  (exists ua ub, tickets_url p a = Some ua /\ tickets_url p b = Some ub /\ ua <> ub) /\
  (exists ua ub, web_form_url p model a = Some ua /\ web_form_url p model b = Some ub /\
                 ua <> ub).
Proof.
  intros Ha Hb Hab. unfold tasks_url, tickets_url, web_form_url, id_text.
  destruct (Z.leb_spec (Z.abs a) (2 ^ 53)) as [_ | Hlt]; [| lia].
  destruct (Z.leb_spec (Z.abs b) (2 ^ 53)) as [_ | Hlt]; [| lia].
  cbn [option_map].
  repeat split; eexists _, _; (split; [reflexivity |]); (split; [reflexivity |]);
    intro H; apply Hab, string_of_Z_inj;
    apply append_cancel_l, append_cancel_l in H; now apply append_cancel_r in H.
Qed.

Lemma deep_links_distinct_witness :
  Z.abs 12 <= 2 ^ 53 /\ Z.abs 13 <= 2 ^ 53 /\ 12 <> 13 /\
  tasks_url Scenario.prefs 12 = Some "https://example.odoo.com/odoo/action-369/12/tasks" /\
  exists ua ub, tasks_url Scenario.prefs 12 = Some ua /\
                tasks_url Scenario.prefs 13 = Some ub /\ ua <> ub.
Proof.
  assert (H12 : Z.abs 12 <= 2 ^ 53) by (cbn; lia).
  assert (H13 : Z.abs 13 <= 2 ^ 53) by (cbn; lia).
  assert (H : 12 <> 13) by discriminate.
  split; [exact H12 |]. split; [exact H13 |]. split; [exact H |].
  split; [reflexivity |].
  exact (proj1 (deep_links_distinct Scenario.prefs "project.project" 12 13 H12 H13 H)).
Defined.

(** ** The query helpers in closed form *)

Lemma settle_value (out : FetchOutcome) (v : json) :
  settle out = inr v -> v = JNull \/ truthy v = true.
Proof.
  unfold settle. destruct out as [msg | r]; [discriminate |].
  destruct (negb (ok r)); [discriminate |].
  destruct (body r) as [msg | data]; [discriminate |].
  destruct (error data); [discriminate |].
  intros [= <-]. unfold js_or.
  destruct (result data) as [x |]; [| now left].
  destruct (truthy x) eqn:E; [now right | now left].
Qed.

Section ClosedForms.

Variable preferences : Preferences.
Variable Math_random : nat -> Q.
Variable backend : list (Request * FetchOutcome) -> Request -> FetchOutcome.

Local Abbreviation run := (exec Math_random backend).
Local Abbreviation new_id := (next_id Math_random).

(** Every way [searchRead] can go, read off the answers it meets. *)
Lemma searchRead_closed_form (w : World) (model : string) (domain : list json)
    (options : JsObject) :
  run (searchRead preferences model domain options) w =
  let call (w : World) (u : json) :=
    let rq1 := requestBody preferences u model "search_read" [JArr domain] options
                 (new_id w) in
    let out1 := backend (exchanges w) rq1 in
    let w1 := add_exchange rq1 out1 (next_draw w) in
    match settle out1 with
    | inr v => (Returned (if truthy v then v else JArr []), w1)
    | inl e =>
        (Returned (JArr []),
         add_toast (search_toast model e)
           (add_console ("Error searching " ++ model ++ ":") e
              (add_console ("Error executing " ++ model ++ "." ++ "search_read" ++ ":") e
                 w1)))
    end in
  if truthy (uid w) then call w (uid w)
  else
    let rq0 := authBody preferences (new_id w) in
    let out0 := backend (exchanges w) rq0 in
    let w0 := add_exchange rq0 out0 (next_draw w) in
    match settle out0 with
    | inr v => if truthy v then call (set_uid v w0) v
               else (Returned (JArr []), set_uid v w0)
    | inl e =>
        (Returned (JArr []),
         add_toast (auth_toast e) (add_console "Authentication error:" e w0))
    end.
Proof.
  rewrite searchRead_run. cbv zeta.
  destruct (truthy (uid w)) eqn:Hw.
  - rewrite (execute_warm _ _ _ _ _ _ _ _ Hw). cbv zeta.
    destruct (settle _); reflexivity.
  - rewrite (execute_cold _ _ _ _ _ _ _ _ Hw). cbv zeta.
    destruct (settle (backend (exchanges w) _)) as [e | v]; [reflexivity |].
    destruct (truthy v) eqn:Hv; [| reflexivity].
    rewrite (execute_warm _ _ _ (set_uid v _) _ _ _ _ Hv). cbv zeta.
    cbn [uid set_uid].
    destruct (settle _); reflexivity.
Qed.

(** The same for the views' own requests: a login every time, no cache. *)
Lemma inline_call_closed_form (w : World) (label fallback model : string)
    (domain : list json) (kwargs : JsObject) :
  run (inline_call preferences label fallback model domain kwargs) w =
  let rq0 := authBody preferences (new_id w) in
  let out0 := backend (exchanges w) rq0 in
  let w0 := add_exchange rq0 out0 (next_draw w) in
  match settle out0 with
  | inr v =>
      if truthy v then
        let rq1 := requestBody preferences v model "search_read" [JArr domain] kwargs
                     (new_id w0) in
        let out1 := backend (exchanges w0) rq1 in
        let w1 := add_exchange rq1 out1 (next_draw w0) in
        match settle out1 with
        | inr r => (Returned (if truthy r then r else JArr []), w1)
        | inl e =>
            (Returned (JArr []),
             add_toast {| style := Failure; title := "Error";
                          message := message_of e fallback |}
               (add_console label e w1))
        end
      else (Returned (JArr []), w0)
  | inl e =>
      (Returned (JArr []),
       add_toast (auth_toast e) (add_console "Authentication error:" e w0))
  end.
Proof.
  unfold inline_call, inline_authenticate. simpl. unfold settle, next_id.
  destruct (backend (exchanges w) _) as [msg | r]; simpl; [reflexivity |].
  unfold checked_data, response_json.
  destruct (ok r); simpl; [| reflexivity].
  destruct (body r) as [msg | data]; simpl; [reflexivity |].
  destruct (error data); simpl; [reflexivity |].
  assert (Hraw : forall x, truthy match x with Some v => v | None => JNull end
                           = truthy (js_or x JNull)).
  { intros [x |]; simpl; [| reflexivity]. destruct (truthy x) eqn:E; auto. }
  rewrite Hraw.
  destruct (truthy (js_or (result data) JNull)) eqn:Hv; simpl; [| reflexivity].
  assert (Hsame : match result data with Some v => v | None => JNull end
                  = js_or (result data) JNull).
  { unfold js_or in *. destruct (result data) as [x |]; [| reflexivity].
    destruct (truthy x); [reflexivity | discriminate]. }
  rewrite Hsame.
  destruct (backend _ _) as [msg | r1]; simpl; [reflexivity |].
  destruct (ok r1); simpl; [| reflexivity].
  destruct (body r1) as [msg | data1]; simpl; [reflexivity |].
  destruct (error data1); simpl; [reflexivity |].
  unfold js_or. destruct (result data1) as [x |]; simpl; [| reflexivity].
  destruct (truthy x) eqn:E; simpl; rewrite ?E; reflexivity.
Qed.

End ClosedForms.

(** ** Every query: what it returns, sends and shows *)

Lemma perform_inline (preferences : Preferences) (model : string) (domain : list json)
    (kwargs : JsObject) :
  perform preferences (InlineSearchRead model domain kwargs) =
  inline_call preferences "Error searching projects:" "Failed to search projects"
    model domain kwargs.
Proof. reflexivity. Qed.

Ltac world_simpl :=
  cbn [uid toasts exchanges console draws set_uid add_toast add_console add_exchange
       next_draw fst snd].

Ltac query_cases q :=
  destruct q as [?model ?query ?options | ?model ?options | ?model ?domain ?kwargs];
  [ cbn [perform]; unfold searchByName; rewrite searchRead_closed_form
  | cbn [perform]; unfold getAll; rewrite searchRead_closed_form
  | rewrite perform_inline, inline_call_closed_form ];
  cbv zeta;
  repeat match goal with
         | |- context [match settle ?o with _ => _ end] =>
             let E := fresh "Hsettle" in destruct (settle o) eqn:E
         | |- context [if truthy ?v then _ else _] =>
             let E := fresh "Htruthy" in destruct (truthy v) eqn:E
         end;
  world_simpl.

(** X3. A query never throws and never gives [null] or another falsy
    value: the caller gets the empty list, or the truthy result of the
    [execute_kw] answer of this very query, whatever that result is. *)
Theorem queries_never_throw (preferences : Preferences) (Math_random : nat -> Q)
    (backend : list (Request * FetchOutcome) -> Request -> FetchOutcome)
    (w : World) (q : Query) :
  let res := exec Math_random backend (perform preferences q) w in
  exists v, fst res = Returned v /\
            truthy v = true /\
            (v = JArr [] \/
             exists x, In x (new_exchanges w (snd res)) /\
                       is_execute_kw x = true /\
                       settle (snd x) = inr v).
Proof.
  cbv zeta.
  assert (H1 : forall w' a, exchanges w' = (exchanges w ++ [a])%list ->
                            new_exchanges w w' = [a]).
  { intros w' a Hx. now apply new_exchanges_app. }
  assert (H2 : forall w' a b, exchanges w' = ((exchanges w ++ [a]) ++ [b])%list ->
                              new_exchanges w w' = [a; b]).
  { intros w' a b Hx. apply new_exchanges_app. rewrite Hx. now rewrite <- app_assoc. }
  query_cases q; eexists; (split; [reflexivity |]);
    (split; [assumption || reflexivity |]);
    first [ left; reflexivity
          | right; erewrite H1 by reflexivity;
            eexists; split; [left; reflexivity |];
            split; [reflexivity | eassumption]
          | right; erewrite H2 by reflexivity;
            eexists; split; [right; left; reflexivity |];
            split; [reflexivity | eassumption] ].
Qed.

(** X4. What a query sends is decided by the cache and by the login. A
    query through the service with a session cached sends the [execute_kw]
    call alone, with that session. Otherwise (no session cached, or a view's
    own query) it sends the login first, and after it the [execute_kw] call,
    with the session the login gave, exactly when the login gave a truthy
    one. Nothing else is sent. *)
Theorem queries_send_login_then_call (preferences : Preferences)
    (Math_random : nat -> Q)
    (backend : list (Request * FetchOutcome) -> Request -> FetchOutcome)
    (w : World) (q : Query) :
  let new := new_exchanges w (snd (exec Math_random backend (perform preferences q) w)) in
  let login := (authBody preferences (next_id Math_random w),
                backend (exchanges w) (authBody preferences (next_id Math_random w))) in
  (uses_cache q = true -> truthy (uid w) = true ->
   exists a, new = [a] /\ is_execute_kw a = true /\ session_of (fst a) = uid w) /\
  (uses_cache q = false \/ truthy (uid w) = false ->
   is_login login = true /\
   match settle (snd login) with
   | inr v =>
       if truthy v
       then exists b, new = [login; b] /\ is_execute_kw b = true /\
                      session_of (fst b) = v
       else new = [login]
   | inl _ => new = [login]
   end).
Proof.
  cbv zeta.
  assert (H1 : forall w' a, exchanges w' = (exchanges w ++ [a])%list ->
                            new_exchanges w w' = [a]).
  { intros w' a Hx. now apply new_exchanges_app. }
  assert (H2 : forall w' a b, exchanges w' = ((exchanges w ++ [a]) ++ [b])%list ->
                              new_exchanges w w' = [a; b]).
  { intros w' a b Hx. apply new_exchanges_app. rewrite Hx. now rewrite <- app_assoc. }
  split.
  - intros Hq Hw.
    destruct q as [model query options | model options | model domain kwargs];
      [| | discriminate];
      cbn [perform]; unfold searchByName, getAll; rewrite searchRead_closed_form;
      cbv zeta; rewrite Hw;
      (destruct (settle _));
      world_simpl; erewrite H1 by reflexivity;
      eexists; (split; [reflexivity |]); split; reflexivity.
  - intros Hq. split; [reflexivity |]. cbn [snd].
    destruct q as [model query options | model options | model domain kwargs].
    + destruct Hq as [Hq | Hw]; [discriminate |].
      cbn [perform]. unfold searchByName. rewrite searchRead_closed_form.
      cbv zeta. rewrite Hw.
      destruct (settle (backend (exchanges w) _)) as [e | v].
      * world_simpl. now erewrite H1 by reflexivity.
      * destruct (truthy v); [| world_simpl; now erewrite H1 by reflexivity].
        destruct (settle _); world_simpl; erewrite H2 by reflexivity;
          eexists; (split; [reflexivity |]); split; reflexivity.
    + destruct Hq as [Hq | Hw]; [discriminate |].
      cbn [perform]. unfold getAll. rewrite searchRead_closed_form.
      cbv zeta. rewrite Hw.
      destruct (settle (backend (exchanges w) _)) as [e | v].
      * world_simpl. now erewrite H1 by reflexivity.
      * destruct (truthy v); [| world_simpl; now erewrite H1 by reflexivity].
        destruct (settle _); world_simpl; erewrite H2 by reflexivity;
          eexists; (split; [reflexivity |]); split; reflexivity.
    + rewrite perform_inline, inline_call_closed_form. cbv zeta.
      destruct (settle (backend (exchanges w) _)) as [e | v].
      * world_simpl. now erewrite H1 by reflexivity.
      * destruct (truthy v); [| world_simpl; now erewrite H1 by reflexivity].
        destruct (settle _); world_simpl; erewrite H2 by reflexivity;
          eexists; (split; [reflexivity |]); split; reflexivity.
Qed.

Lemma queries_send_login_then_call_witness :
  let sent (w : World) :=
    map (fun x => (rq_method (fst x), session_of (fst x)))
        (new_exchanges w (snd (exec Scenario.half Scenario.backend
                                 (perform Scenario.prefs SearchProjects.ask_all) w))) in
  uses_cache SearchProjects.ask_all = true /\
  truthy (uid Scenario.logged_in) = true /\
  truthy (uid fresh_world) = false /\
  (exists a, new_exchanges Scenario.logged_in
               (snd (exec Scenario.half Scenario.backend
                       (perform Scenario.prefs SearchProjects.ask_all)
                       Scenario.logged_in)) = [a] /\
             is_execute_kw a = true /\ session_of (fst a) = uid Scenario.logged_in) /\
  sent Scenario.logged_in = [("execute_kw", JNum 7)] /\
  sent fresh_world = [("login", JStr "api"); ("execute_kw", JNum 7)].
Proof.
  cbv zeta. split; [reflexivity |]. split; [reflexivity |]. split; [reflexivity |].
  split; [| split; reflexivity].
  exact (proj1 (queries_send_login_then_call Scenario.prefs Scenario.half
                  Scenario.backend Scenario.logged_in SearchProjects.ask_all)
               eq_refl eq_refl).
Defined.

(** X5. A query shows at most one toast, always a failure toast, and
    whenever it shows one the caller gets the empty list. *)
Theorem toast_means_empty_result (preferences : Preferences) (Math_random : nat -> Q)
    (backend : list (Request * FetchOutcome) -> Request -> FetchOutcome)
    (w : World) (q : Query) :
  let res := exec Math_random backend (perform preferences q) w in
  toasts (snd res) = toasts w \/
  exists t, toasts (snd res) = (toasts w ++ [t])%list /\
            style t = Failure /\
            fst res = Returned (JArr []).
Proof.
  cbv zeta.
  query_cases q;
    first [ now left
          | right; eexists; split; [reflexivity | split; reflexivity] ].
Qed.

(** ** The session cache *)

Section CacheFacts.

Variable preferences : Preferences.
Variable Math_random : nat -> Q.
Variable backend : list (Request * FetchOutcome) -> Request -> FetchOutcome.

Local Abbreviation run := (exec Math_random backend).

(** After [execute] the cache holds what it held, or the session a login
    of this call gave. *)
Lemma execute_uid (w : World) (model method : string) (args : list json)
    (kwargs : JsObject) :
  let w' := snd (run (execute preferences model method args kwargs) w) in
  uid w' = uid w \/ exists out v, settle out = inr v /\ uid w' = v.
Proof.
  cbv zeta. destruct (truthy (uid w)) eqn:Hw.
  - left. now destruct (execute_warm_world preferences Math_random backend
                          w model method args kwargs Hw) as (Hu & _).
  - rewrite (execute_cold _ _ _ _ _ _ _ _ Hw). cbv zeta.
    destruct (settle _) as [e | v] eqn:Hs; [now left |].
    right. exists (backend (exchanges w)
                     (authBody preferences (next_id Math_random w))), v.
    split; [exact Hs |].
    destruct (truthy v) eqn:Hv; [| reflexivity].
    match goal with
    | |- context [run _ ?w1] =>
        now destruct (execute_warm_world preferences Math_random backend
                        w1 model method args kwargs Hv) as (Hu & _)
    end.
Qed.

End CacheFacts.

(** X6. The cache of an instance holds [null] or a truthy session, and
    every operation keeps it so: queries, [execute], [authenticate] and
    [invalidateAuth]. A falsy answer to the login is stored as [null]. *)
Theorem cache_null_or_truthy (preferences : Preferences) (Math_random : nat -> Q)
    (backend : list (Request * FetchOutcome) -> Request -> FetchOutcome)
    (w : World) (q : Query)
    (model method : string) (args : list json) (kwargs : JsObject) :
  uid_ok w ->
  uid_ok (snd (exec Math_random backend (perform preferences q) w)) /\
  uid_ok (snd (exec Math_random backend
                 (execute preferences model method args kwargs) w)) /\
  uid_ok (snd (exec Math_random backend (authenticate preferences) w)) /\
  uid_ok (snd (exec Math_random backend invalidateAuth w)).
Proof.
  intro Hok. repeat split.
  - unfold uid_ok in *.
    query_cases q;
      first [ exact Hok
            | right; assumption
            | eapply settle_value; eassumption
            | destruct Hok; [left; assumption | congruence] ].
  - unfold uid_ok in *.
    destruct (execute_uid preferences Math_random backend w model method args kwargs)
      as [-> | (out & v & Hs & ->)]; [exact Hok |].
    eapply settle_value; eassumption.
  - destruct (truthy (uid w)) eqn:Hw.
    + rewrite (authenticate_warm _ _ _ _ Hw). exact Hok.
    + rewrite (authenticate_cold _ _ _ _ Hw). cbv zeta.
      destruct (settle _) as [e | v] eqn:Hs; [exact Hok |].
      unfold uid_ok. world_simpl. eapply settle_value; eassumption.
  - left. reflexivity.
Qed.

Lemma cache_null_or_truthy_witness :
  uid_ok fresh_world /\
  uid_ok (snd (exec Scenario.half WrongPassword.backend
                 (perform Scenario.prefs SearchProjects.ask_all) fresh_world)) /\
  uid (snd (exec Scenario.half WrongPassword.backend
              (perform Scenario.prefs SearchProjects.ask_all) fresh_world)) = JNull.
Proof.
  assert (H : uid_ok fresh_world) by (left; reflexivity).
  split; [exact H |]. split; [| reflexivity].
  exact (proj1 (cache_null_or_truthy Scenario.prefs Scenario.half WrongPassword.backend
                  fresh_world SearchProjects.ask_all "" "" [] [] H)).
Defined.

(** X7. [authenticate] never throws. It gives [null], or a truthy session
    that is then the one cached; with a session cached it gives that one and
    changes nothing, so no request is sent. *)
Theorem authenticate_total (preferences : Preferences) (Math_random : nat -> Q)
    (backend : list (Request * FetchOutcome) -> Request -> FetchOutcome)
    (w : World) :
  let res := exec Math_random backend (authenticate preferences) w in
  (exists v, fst res = Returned v /\
             (v = JNull \/ (truthy v = true /\ uid (snd res) = v))) /\
  (truthy (uid w) = true -> res = (Returned (uid w), w)).
Proof.
  cbv zeta. split; [| apply authenticate_warm].
  destruct (truthy (uid w)) eqn:Hw.
  - rewrite (authenticate_warm _ _ _ _ Hw). eexists. split; [reflexivity |]. now right.
  - rewrite (authenticate_cold _ _ _ _ Hw). cbv zeta.
    destruct (settle _) as [e | v] eqn:Hs.
    + eexists. split; [reflexivity |]. now left.
    + eexists. split; [reflexivity |].
      destruct (settle_value _ _ Hs) as [-> | Hv]; [now left | now right].
Qed.

Lemma authenticate_total_witness :
  truthy (uid Scenario.logged_in) = true /\
  exec Scenario.half ServerError.backend (authenticate Scenario.prefs) Scenario.logged_in
  = (Returned (JNum 7), Scenario.logged_in).
Proof.
  split; [reflexivity |].
  exact (proj2 (authenticate_total Scenario.prefs Scenario.half ServerError.backend
                  Scenario.logged_in) eq_refl).
Defined.

(** X8. A login answered without error but with a falsy result (as the
    backend does for a wrong key) fails in silence: the query gives the
    empty list, no toast is shown, nothing is logged and no call is sent. *)
Theorem falsy_session_is_silent (preferences : Preferences) (Math_random : nat -> Q)
    (backend : list (Request * FetchOutcome) -> Request -> FetchOutcome)
    (w : World) (q : Query) (v : json) :
  truthy (uid w) = false ->
  settle (backend (exchanges w) (authBody preferences (next_id Math_random w))) = inr v ->
  truthy v = false ->
  let res := exec Math_random backend (perform preferences q) w in
  fst res = Returned (JArr []) /\
  toasts (snd res) = toasts w /\
  console (snd res) = console w /\
  execute_kw_calls (snd res) = execute_kw_calls w /\
  truthy (uid (snd res)) = false.
Proof.
  intros Hw Hs Hv. cbv zeta.
  assert (Hkw : forall w', exchanges w' =
                  (exchanges w ++ [(authBody preferences (next_id Math_random w),
                                    backend (exchanges w)
                                      (authBody preferences (next_id Math_random w)))])%list ->
                execute_kw_calls w' = execute_kw_calls w).
  { intros w' Hx. unfold execute_kw_calls. rewrite Hx, filter_app, length_app.
    simpl. lia. }
  destruct q as [model query options | model options | model domain kwargs].
  - cbn [perform]. unfold searchByName. rewrite searchRead_closed_form. cbv zeta.
    rewrite Hw, Hs, Hv. world_simpl. repeat split; auto.
  - cbn [perform]. unfold getAll. rewrite searchRead_closed_form. cbv zeta.
    rewrite Hw, Hs, Hv. world_simpl. repeat split; auto.
  - rewrite perform_inline, inline_call_closed_form. cbv zeta.
    rewrite Hs, Hv. world_simpl. repeat split; auto.
Qed.

Lemma falsy_session_is_silent_witness :
  let res := exec Scenario.half WrongPassword.backend
               (perform Scenario.prefs (SearchProjects.ask_search "web")) fresh_world in
  truthy (uid fresh_world) = false /\
  settle (WrongPassword.backend (exchanges fresh_world)
            (authBody Scenario.prefs (next_id Scenario.half fresh_world))) = inr JNull /\
  truthy JNull = false /\
  fst res = Returned (JArr []) /\
  toasts (snd res) = toasts fresh_world.
Proof.
  cbv zeta. split; [reflexivity |]. split; [reflexivity |]. split; [reflexivity |].
  destruct (falsy_session_is_silent Scenario.prefs Scenario.half WrongPassword.backend
              fresh_world (SearchProjects.ask_search "web") JNull
              eq_refl eq_refl eq_refl) as (H1 & H2 & _).
  split; [exact H1 | exact H2].
Defined.

(** ** [execute]: when it throws *)

(** X9. [execute] throws only for its own call: then a session was there,
    the [execute_kw] request was the last one sent and failed with the error
    thrown, no toast was shown, and the session stays cached (a failure
    invalidates nothing). *)
Theorem execute_throws_for_its_call (preferences : Preferences)
    (Math_random : nat -> Q)
    (backend : list (Request * FetchOutcome) -> Request -> FetchOutcome)
    (w : World) (model method : string) (args : list json) (kwargs : JsObject)
    (e : Thrown) :
  let res := exec Math_random backend (execute preferences model method args kwargs) w in
  fst res = Threw e ->
  toasts (snd res) = toasts w /\
  truthy (uid (snd res)) = true /\
  exists rq out,
    last (exchanges (snd res)) (rq, out) = (rq, out) /\
    In (rq, out) (new_exchanges w (snd res)) /\
    is_execute_kw (rq, out) = true /\
    settle out = inl e.
Proof.
  cbv zeta.
  assert (Hwarm : forall w0, truthy (uid w0) = true ->
            fst (exec Math_random backend
                   (execute preferences model method args kwargs) w0) = Threw e ->
            let res := exec Math_random backend
                         (execute preferences model method args kwargs) w0 in
            toasts (snd res) = toasts w0 /\
            truthy (uid (snd res)) = true /\
            exists rq out,
              exchanges (snd res) = (exchanges w0 ++ [(rq, out)])%list /\
              is_execute_kw (rq, out) = true /\
              settle out = inl e).
  { intros w0 Hw0. cbv zeta. rewrite (execute_warm _ _ _ _ _ _ _ _ Hw0). cbv zeta.
    destruct (settle _) as [e' | v] eqn:Hs; [| discriminate].
    intros [= ->]. world_simpl. repeat split; [exact Hw0 |].
    eexists _, _. split; [reflexivity |]. split; [reflexivity | exact Hs]. }
  destruct (truthy (uid w)) eqn:Hw.
  - intro Hthrew.
    destruct (Hwarm w Hw Hthrew) as (Ht & Hu & rq & out & Hx & Hkw & Hs).
    split; [exact Ht |]. split; [exact Hu |].
    exists rq, out. rewrite Hx. split; [apply last_last |].
    split; [| split; [exact Hkw | exact Hs]].
    rewrite (new_exchanges_app _ _ _ Hx). now left.
  - rewrite (execute_cold _ _ _ _ _ _ _ _ Hw). cbv zeta.
    destruct (settle (backend (exchanges w) _)) as [e' | v]; [discriminate |].
    destruct (truthy v) eqn:Hv; [| discriminate].
    intro Hthrew.
    match type of Hthrew with
    | fst (exec _ _ _ ?w1) = _ =>
        destruct (Hwarm w1 Hv Hthrew) as (Ht & Hu & rq & out & Hx & Hkw & Hs)
    end.
    split; [exact Ht |]. split; [exact Hu |].
    exists rq, out. rewrite Hx. split; [apply last_last |].
    split; [| split; [exact Hkw | exact Hs]].
    erewrite new_exchanges_app
      by (rewrite Hx; world_simpl; rewrite <- app_assoc; reflexivity).
    right. now left.
Qed.

Lemma execute_throws_for_its_call_witness :
  let res := exec Scenario.half ServerError.backend
               (execute Scenario.prefs "project.project" "search_count" [JArr []] [])
               fresh_world in
  fst res = Threw (ErrorObj "HTTP error! status: 500") /\
  toasts (snd res) = toasts fresh_world /\
  uid (snd res) = JNum 7.
Proof.
  cbv zeta.
  assert (H : fst (exec Scenario.half ServerError.backend
                     (execute Scenario.prefs "project.project" "search_count"
                        [JArr []] []) fresh_world)
              = Threw (ErrorObj "HTTP error! status: 500")) by reflexivity.
  split; [exact H |]. split; [| reflexivity].
  exact (proj1 (execute_throws_for_its_call Scenario.prefs Scenario.half
                  ServerError.backend fresh_world "project.project" "search_count"
                  [JArr []] [] _ H)).
Defined.

(** ** The options of the helpers *)

Lemma obj_get_set_other (k k' : string) (v : json) (o : JsObject) :
  k' <> k -> obj_get k' (obj_set k v o) = obj_get k' o.
Proof.
  intro Hne.
  assert (Hk : String.eqb k' k = false) by now apply String.eqb_neq.
  induction o as [| [k0 v0] rest IH]; cbn [obj_set obj_get].
  - now rewrite Hk.
  - destruct (String.eqb k k0) eqn:E; cbn [obj_get].
    + apply String.eqb_eq in E. subst k0. now rewrite Hk.
    + destruct (String.eqb k' k0); [reflexivity | exact IH].
Qed.

(** X10. Whatever options the caller of [getAll] passes (any keys, any
    values), every [execute_kw] request carries them unchanged except for
    [limit], which is the caller's when truthy and 100 otherwise; called
    with no options at all, [getAll] sends [{ fields: [], limit: 100 }]. *)
Theorem getAll_keeps_other_options (preferences : Preferences) (Math_random : nat -> Q)
    (backend : list (Request * FetchOutcome) -> Request -> FetchOutcome)
    (w : World) (model : string) (options : JsObject) (x : Request * FetchOutcome) :
  (In x (new_exchanges w (snd (exec Math_random backend
                                 (getAll preferences model (Some options)) w))) ->
   is_execute_kw x = true ->
   exists sent,
     call_part (fst x) = [JStr model; JStr "search_read"; JArr [JArr []]; JObj sent] /\
     (forall key, key <> "limit" -> obj_get key sent = obj_get key options) /\
     obj_get "limit" sent = Some (js_or (obj_get "limit" options) (JNum 100))) /\
  (In x (new_exchanges w (snd (exec Math_random backend
                                 (getAll preferences model None) w))) ->
   is_execute_kw x = true ->
   call_part (fst x) =
   [JStr model; JStr "search_read"; JArr [JArr []];
    JObj [("fields", JArr []); ("limit", JNum 100)]]).
Proof.
  split; intros Hin Hkw.
  - eexists. split; [exact (searchRead_requests _ _ _ _ _ _ _ _ Hin Hkw) |].
    split.
    + intros key Hne. now apply obj_get_set_other.
    + apply obj_get_set_same.
  - exact (searchRead_requests _ _ _ _ _ _ _ _ Hin Hkw).
Qed.

Lemma getAll_keeps_other_options_witness :
  let options := [("order", JStr "name asc"); ("fields", JArr [JStr "id"]);
                  ("limit", JStr "")] in
  let sent := [("order", JStr "name asc"); ("fields", JArr [JStr "id"]);
               ("limit", JNum 100)] in
  let x := (requestBody Scenario.prefs (JNum 7) "project.project" "search_read"
              [JArr []] sent 500000,
            Scenario.reply (JArr [Scenario.project_12])) in
  In x (new_exchanges Scenario.logged_in
          (snd (exec Scenario.half Scenario.backend
                  (getAll Scenario.prefs "project.project" (Some options))
                  Scenario.logged_in))) /\
  is_execute_kw x = true /\
  exists sent',
    call_part (fst x) =
    [JStr "project.project"; JStr "search_read"; JArr [JArr []]; JObj sent'] /\
    (forall key, key <> "limit" -> obj_get key sent' = obj_get key options) /\
    obj_get "limit" sent' = Some (js_or (obj_get "limit" options) (JNum 100)).
Proof.
  cbv zeta.
  assert (Hin : In (requestBody Scenario.prefs (JNum 7) "project.project" "search_read"
                      [JArr []]
                      [("order", JStr "name asc"); ("fields", JArr [JStr "id"]);
                       ("limit", JNum 100)] 500000,
                    Scenario.reply (JArr [Scenario.project_12]))
                  (new_exchanges Scenario.logged_in
                     (snd (exec Scenario.half Scenario.backend
                             (getAll Scenario.prefs "project.project"
                                (Some [("order", JStr "name asc");
                                       ("fields", JArr [JStr "id"]);
                                       ("limit", JStr "")]))
                             Scenario.logged_in)))).
  { left. reflexivity. }
  split; [exact Hin |]. split; [reflexivity |].
  exact (proj1 (getAll_keeps_other_options Scenario.prefs Scenario.half Scenario.backend
                  Scenario.logged_in "project.project" _ _) Hin eq_refl).
Defined.

(** ** The views' own requests *)

(** Past the blank test, the views' own requests begin with a login of
    their own, whatever the cache holds. *)
Lemma inline_call_logs_in (preferences : Preferences) (Math_random : nat -> Q)
    (backend : list (Request * FetchOutcome) -> Request -> FetchOutcome)
    (w : World) (label fallback model : string) (domain : list json)
    (kwargs : JsObject) :
  logged_in_first preferences Math_random backend w
    (exec Math_random backend
       (inline_call preferences label fallback model domain kwargs) w).
Proof.
  unfold logged_in_first. rewrite inline_call_closed_form. cbv zeta.
  assert (H1 : forall w' a, exchanges w' = (exchanges w ++ [a])%list ->
                 new_exchanges w w' = [a] /\
                 (is_login a = true -> login_calls w' = S (login_calls w))).
  { intros w' a Hx. split; [now apply new_exchanges_app |].
    intro Ha. unfold login_calls. rewrite Hx, filter_app, length_app. simpl.
    rewrite Ha. simpl. lia. }
  assert (H2 : forall w' a b, exchanges w' = ((exchanges w ++ [a]) ++ [b])%list ->
                 new_exchanges w w' = [a; b] /\
                 (is_login a = true -> is_login b = false ->
                  login_calls w' = S (login_calls w))).
  { intros w' a b Hx. split.
    - apply new_exchanges_app. rewrite Hx. now rewrite <- app_assoc.
    - intros Ha Hb. unfold login_calls. rewrite Hx, !filter_app, !length_app. simpl.
      rewrite Ha, Hb. simpl. lia. }
  repeat match goal with
         | |- context [match settle ?o with _ => _ end] =>
             let E := fresh "Hsettle" in destruct (settle o) eqn:E
         | |- context [if truthy ?v then _ else _] =>
             let E := fresh "Htruthy" in destruct (truthy v) eqn:E
         end;
    world_simpl;
    (split; [reflexivity |]);
    match goal with
    | |- login_calls ?w' = _ /\ _ =>
        first [ destruct (H1 w' _ eq_refl) as [Hn Hl]
              | destruct (H2 w' _ _ eq_refl) as [Hn Hl] ]
    end;
    (split; [apply Hl; reflexivity |]);
    (split; [rewrite Hn; reflexivity |]);
    eexists; (split; [reflexivity | assumption || reflexivity]).
Qed.

(** X11. The views' own search and listing never use the session cache. A
    search with a blank text returns the empty list at once and sends
    nothing; every other search, and every listing, begins with a login of
    its own whatever the cache holds, sends exactly one login, leaves the
    cache as it was, never throws and gives a truthy value. *)
Theorem inline_calls_always_log_in (preferences : Preferences) (Math_random : nat -> Q)
    (backend : list (Request * FetchOutcome) -> Request -> FetchOutcome)
    (w : World) (query : string) :
  let run := exec Math_random backend in
  (trim query = "" ->
   run (InlineProjects.searchProjects preferences query) w = (Returned (JArr []), w) /\
   run (InlineHelpdesk.searchHelpdeskTeams preferences query) w
   = (Returned (JArr []), w)) /\
  (trim query <> "" ->
   logged_in_first preferences Math_random backend w
     (run (InlineProjects.searchProjects preferences query) w) /\
   logged_in_first preferences Math_random backend w
     (run (InlineHelpdesk.searchHelpdeskTeams preferences query) w)) /\
  logged_in_first preferences Math_random backend w
    (run (InlineProjects.getAllProjects preferences) w).
Proof.
  cbv zeta. unfold InlineProjects.searchProjects, InlineHelpdesk.searchHelpdeskTeams,
    InlineProjects.getAllProjects.
  split; [| split].
  - intros ->. split; reflexivity.
  - intro Hne.
    destruct (String.eqb_spec (trim query) "") as [Hb | _]; [contradiction |].
    split; apply inline_call_logs_in.
  - apply inline_call_logs_in.
Qed.

Lemma inline_calls_always_log_in_witness :
  let run := exec Scenario.half Scenario.backend in
  trim "  " = "" /\
  trim " web" <> "" /\
  run (InlineProjects.searchProjects Scenario.prefs "  ") Scenario.logged_in
  = (Returned (JArr []), Scenario.logged_in) /\
  logged_in_first Scenario.prefs Scenario.half Scenario.backend Scenario.logged_in
    (run (InlineProjects.searchProjects Scenario.prefs " web") Scenario.logged_in) /\
  login_calls (snd (run (InlineProjects.searchProjects Scenario.prefs " web")
                      Scenario.logged_in)) = 1%nat.
Proof.
  cbv zeta.
  assert (Hb : trim "  " = "") by reflexivity.
  assert (Hn : trim " web" <> "") by discriminate.
  split; [exact Hb |]. split; [exact Hn |].
  split; [| split; [| reflexivity]].
  - exact (proj1 (proj1 (inline_calls_always_log_in Scenario.prefs Scenario.half
                           Scenario.backend Scenario.logged_in "  ") Hb)).
  - exact (proj1 (proj1 (proj2 (inline_calls_always_log_in Scenario.prefs Scenario.half
                                  Scenario.backend Scenario.logged_in " web")) Hn)).
Defined.

(** ** Calls in flight together *)

(** X12. Two calls made on an instance with no session, the second before
    the first login is answered, both log in: nothing makes the second wait
    for the first. Each then sends its call with the session its own login
    gave, and the cache keeps the one answered last. *)
Theorem cold_calls_both_log_in (preferences : Preferences) (Math_random : nat -> Q)
    (w : World) (v1 v2 : json)
    (model1 method1 : string) (args1 : list json) (kwargs1 : JsObject)
    (model2 method2 : string) (args2 : list json) (kwargs2 : JsObject) :
  truthy (uid w) = false ->
  truthy v1 = true ->
  truthy v2 = true ->
  let s := start Math_random (execute preferences model2 method2 args2 kwargs2)
             (start Math_random (execute preferences model1 method1 args1 kwargs1)
                (idle w)) in
  let s' := deliver Math_random 0 (Scenario.reply v2)
              (deliver Math_random 0 (Scenario.reply v1) s) in
  map (fun p => rq_method (fst p)) (in_flight s) = ["login"; "login"] /\
  map (fun p => (rq_method (fst p), nth 1 (rq_args (fst p)) JNull)) (in_flight s')
  = [("execute_kw", v1); ("execute_kw", v2)] /\
  uid (world s') = v2 /\
  login_calls (world s') = (2 + login_calls w)%nat.
Proof.
  intros Hw H1 H2. cbv zeta.
  unfold start, execute, authenticate, idle, deliver, js_or, login_calls.
  repeat (progress (simpl; rewrite ?Hw, ?H1, ?H2)).
  repeat split.
  rewrite !filter_app, !length_app. simpl. lia.
Qed.

Lemma cold_calls_both_log_in_witness :
  let call := execute Scenario.prefs "project.project" "search_read" [JArr []]
                Scenario.fields in
  let s := start Scenario.half call (start Scenario.half call (idle fresh_world)) in
  truthy (uid fresh_world) = false /\
  truthy (JNum 7) = true /\
  truthy (JNum 8) = true /\
  map (fun p => rq_method (fst p)) (in_flight s) = ["login"; "login"].
Proof.
  cbv zeta. split; [reflexivity |]. split; [reflexivity |]. split; [reflexivity |].
  exact (proj1 (cold_calls_both_log_in Scenario.prefs Scenario.half fresh_world
                  (JNum 7) (JNum 8)
                  "project.project" "search_read" [JArr []] Scenario.fields
                  "project.project" "search_read" [JArr []] Scenario.fields
                  eq_refl eq_refl eq_refl)).
Defined.

(** ** The blank test of the views' search *)

Lemma trim_start_all_space (s : string) : all_space s = true -> trim_start s = "".
Proof.
  induction s as [| c rest IH]; simpl; [reflexivity |].
  destruct (is_space c); simpl; [exact IH | discriminate].
Qed.

Lemma trim_start_not_all_space (s : string) :
  all_space s = false ->
  exists c rest, trim_start s = String c rest /\ is_space c = false.
Proof.
  induction s as [| c rest IH]; simpl; [discriminate |].
  destruct (is_space c) eqn:E; simpl; [exact IH |].
  intros _. now exists c, rest.
Qed.

Lemma trim_end_keeps_head (c : ascii) (rest : string) :
  is_space c = false -> trim_end (String c rest) = String c (trim_end rest).
Proof. intro H. cbn [trim_end]. now rewrite H. Qed.

(** X13. The views' search sends nothing exactly when every character of
    the text is whitespace; otherwise it sends the text as typed, with the
    whitespace around it. *)
Theorem search_blank_test (ask_search : string -> Query) (query : string) :
  (trim query = "" <-> all_space query = true) /\
  search ask_search query =
  if all_space query then Resolve (JArr []) else Ask (ask_search query).
Proof.
  assert (Hiff : trim query = "" <-> all_space query = true).
  { unfold trim. split.
    - intro H. destruct (all_space query) eqn:E; [reflexivity |].
      destruct (trim_start_not_all_space query E) as (c & rest & Hs & Hc).
      rewrite Hs, (trim_end_keeps_head c rest Hc) in H. discriminate.
    - intro H. now rewrite (trim_start_all_space query H). }
  split; [exact Hiff |].
  unfold search. destruct (all_space query) eqn:E.
  - rewrite (proj2 Hiff eq_refl). reflexivity.
  - destruct (String.eqb_spec (trim query) "") as [Hb | _]; [| reflexivity].
    apply Hiff in Hb. discriminate.
Qed.

(** ** The debounce timer under any typing *)

Lemma queries_app (a b : list ViewEffect) :
  queries (a ++ b) = (queries a ++ queries b)%list.
Proof. unfold queries. apply flat_map_app. Qed.

Section TypingFacts.

Variable ask_search : string -> Query.
Variable ask_all : Query.

Local Abbreviation fire := (debounced_search ask_search ask_all).

Lemma fire_allowed (text : string) :
  Forall (allowed ask_search ask_all) (queries (fire text)).
Proof.
  unfold debounced_search, search, list_all.
  destruct (Nat.leb_spec 2 (String.length text)) as [Hlen | Hlen].
  - destruct (String.eqb_spec (trim text) "") as [Hb | Hb]; simpl; constructor;
      [| constructor].
    right. now exists text.
  - destruct (String.length text =? 0)%nat; simpl; constructor; [| constructor].
    now left.
Qed.

Lemma advance_effects (now : Z) (v : View) :
  exists added,
    effects (advance fire now v) = (effects v ++ added)%list /\
    Forall (allowed ask_search ask_all) (queries added) /\
    (List.length (queries added) + pending_count (advance fire now v)
     <= pending_count v)%nat.
Proof.
  unfold advance, pending_count.
  destruct (timer v) as [[due text] |].
  - destruct (due <=? now).
    + exists (fire text). cbn [effects timer]. split; [reflexivity |].
      split; [apply fire_allowed |].
      pose proof (debounced_at_most_one ask_search ask_all text). lia.
    + exists []. cbn [effects timer]. rewrite app_nil_r. split; [reflexivity |].
      split; [constructor | simpl; lia].
  - exists []. cbn [effects timer]. rewrite app_nil_r. split; [reflexivity |].
    split; [constructor | simpl; lia].
Qed.

Lemma change_effects (now : Z) (text : string) (v : View) :
  exists added,
    effects (onSearchTextChange fire now text v) = (effects v ++ added)%list /\
    Forall (allowed ask_search ask_all) (queries added) /\
    (List.length (queries added) + pending_count (onSearchTextChange fire now text v)
     <= S (pending_count v))%nat.
Proof.
  destruct (advance_effects now v) as (added & He & Ha & Hn).
  exists added. unfold onSearchTextChange.
  destruct (String.eqb text (searchText (advance fire now v))).
  - split; [exact He |]. split; [exact Ha | lia].
  - cbn [effects]. split; [exact He |]. split; [exact Ha |].
    unfold pending_count at 1. cbn [timer]. lia.
Qed.

Lemma typing_effects (events : list (Z * string)) :
  forall v,
  exists added,
    effects (type_all fire events v) = (effects v ++ added)%list /\
    Forall (allowed ask_search ask_all) (queries added) /\
    (List.length (queries added) + pending_count (type_all fire events v)
     <= List.length events + pending_count v)%nat.
Proof.
  induction events as [| [now text] rest IH]; intro v; cbn [type_all].
  - exists []. rewrite app_nil_r. split; [reflexivity |].
    split; [constructor | simpl; lia].
  - destruct (change_effects now text v) as (a1 & He1 & Ha1 & Hn1).
    destruct (IH (onSearchTextChange fire now text v)) as (a2 & He2 & Ha2 & Hn2).
    exists (a1 ++ a2)%list. rewrite He2, He1, <- app_assoc.
    split; [reflexivity |]. rewrite queries_app. split.
    + apply Forall_app. now split.
    + rewrite length_app. cbn [List.length]. lia.
Qed.

Lemma quiesce_effects (v : View) :
  exists added,
    effects (quiesce fire v) = (effects v ++ added)%list /\
    Forall (allowed ask_search ask_all) (queries added) /\
    (List.length (queries added) <= pending_count v)%nat.
Proof.
  unfold quiesce. destruct (timer v) as [[due text] |] eqn:Ht.
  - destruct (advance_effects (Z.max due (clock v)) v) as (added & He & Ha & Hn).
    exists added. split; [exact He |]. split; [exact Ha | lia].
  - exists []. rewrite app_nil_r. split; [reflexivity |].
    split; [constructor | simpl; lia].
Qed.

End TypingFacts.

(** X14. However the user types (any texts, any times), the view sends at
    most one query per text change, plus one for a timer that was already
    pending; what was done before is never undone. *)
Theorem typing_sends_at_most_one_per_change (ask_search : string -> Query)
    (ask_all : Query) (v : View) (events : list (Z * string)) :
  let fire := debounced_search ask_search ask_all in
  let final := quiesce fire (type_all fire events v) in
  exists added,
    effects final = (effects v ++ added)%list /\
    (List.length (queries added) <= List.length events + pending_count v)%nat.
Proof.
  cbv zeta.
  destruct (typing_effects ask_search ask_all events v) as (a1 & He1 & _ & Hn1).
  destruct (quiesce_effects ask_search ask_all
              (type_all (debounced_search ask_search ask_all) events v))
    as (a2 & He2 & _ & Hn2).
  exists (a1 ++ a2)%list. rewrite He2, He1, <- app_assoc. split; [reflexivity |].
  rewrite queries_app, length_app. lia.
Qed.

(** X15. However the user types, every query the timer sends is the
    listing or a search whose text has at least two characters and is not
    blank: no typing gets a one-character or blank search through. *)
Theorem typing_sends_only_allowed (ask_search : string -> Query)
    (ask_all : Query) (v : View) (events : list (Z * string)) :
  let fire := debounced_search ask_search ask_all in
  Forall (allowed ask_search ask_all) (queries (effects v)) ->
  Forall (allowed ask_search ask_all)
         (queries (effects (quiesce fire (type_all fire events v)))).
Proof.
  cbv zeta. intro Hv.
  destruct (typing_effects ask_search ask_all events v) as (a1 & He1 & Ha1 & _).
  destruct (quiesce_effects ask_search ask_all
              (type_all (debounced_search ask_search ask_all) events v))
    as (a2 & He2 & Ha2 & _).
  rewrite He2, He1, !queries_app. repeat (apply Forall_app; split); assumption.
Qed.

Lemma typing_sends_only_allowed_witness :
  let v := mount [ThenSetProjects SearchProjects.getAllProjects] in
  let events := [(100, "w"); (500, "  "); (900, " web"); (2000, "")] in
  Forall (allowed SearchProjects.ask_search SearchProjects.ask_all)
         (queries (effects v)) /\
  queries (effects (quiesce SearchProjects.debounced
                      (type_all SearchProjects.debounced events v)))
  = [SearchProjects.ask_all; SearchProjects.ask_search " web"; SearchProjects.ask_all] /\
  Forall (allowed SearchProjects.ask_search SearchProjects.ask_all)
         (queries (effects (quiesce SearchProjects.debounced
                              (type_all SearchProjects.debounced events v)))).
Proof.
  cbv zeta.
  assert (H : Forall (allowed SearchProjects.ask_search SearchProjects.ask_all)
                (queries (effects (mount [ThenSetProjects SearchProjects.getAllProjects])))).
  { repeat constructor. }
  split; [exact H |]. split; [reflexivity |].
  exact (typing_sends_only_allowed SearchProjects.ask_search SearchProjects.ask_all
           (mount [ThenSetProjects SearchProjects.getAllProjects])
           [(100, "w"); (500, "  "); (900, " web"); (2000, "")] H).
Defined.

(** ** The timer's closure and slow typing *)

Section ClosureFacts.

Variable callback : string -> list ViewEffect.

Lemma advance_current (now : Z) (v : View) :
  clock v <= now -> timer_current v -> timer_current (advance callback now v).
Proof.
  unfold timer_current, advance. intros Hnow Hv.
  destruct (timer v) as [[due text] |] eqn:Ht; [| exact I].
  destruct (due <=? now); cbn [timer searchText clock]; [exact I |].
  destruct Hv as [Htext Hdue]. split; [exact Htext | lia].
Qed.

Lemma advance_clock (now : Z) (v : View) : clock (advance callback now v) = now.
Proof.
  unfold advance. destruct (timer v) as [[due text] |]; [| reflexivity].
  destruct (due <=? now); reflexivity.
Qed.

Lemma change_current (now : Z) (text : string) (v : View) :
  clock v <= now -> timer_current v ->
  timer_current (onSearchTextChange callback now text v) /\
  clock (onSearchTextChange callback now text v) = now.
Proof.
  intros Hnow Hv. unfold onSearchTextChange.
  destruct (String.eqb text (searchText (advance callback now v))).
  - split; [now apply advance_current | apply advance_clock].
  - split; [| reflexivity]. unfold timer_current. cbn [timer searchText clock].
    split; [reflexivity | lia].
Qed.

Lemma typing_current (events : list (Z * string)) :
  forall v, chronological (clock v) events -> timer_current v ->
            timer_current (type_all callback events v).
Proof.
  induction events as [| [now text] rest IH]; intros v Hch Hv; cbn [type_all];
    [exact Hv |].
  destruct Hch as [Hnow Hrest].
  destruct (change_current now text v Hnow Hv) as [Hc Hclock].
  apply IH; [now rewrite Hclock | exact Hc].
Qed.

(** A slow change lets the pending timer fire first, then sets its own. *)
Lemma change_after_due (now : Z) (text : string) (v : View) :
  due_by now v -> text <> searchText v ->
  onSearchTextChange callback now text v =
  {| searchText := text; timer := Some (now + delay, text); clock := now;
     effects := effects v ++ pending_effects callback v |}.
Proof.
  intros [_ Hdue] Hneq. unfold onSearchTextChange, advance, pending_effects.
  destruct (timer v) as [[due t] |].
  - destruct (Z.leb_spec due now); [| lia]. cbn [searchText effects].
    destruct (String.eqb_spec text (searchText v)); [contradiction | reflexivity].
  - cbn [searchText effects].
    destruct (String.eqb_spec text (searchText v)); [contradiction |].
    now rewrite app_nil_r.
Qed.

Lemma quiesce_pending (v : View) :
  effects (quiesce callback v) = (effects v ++ pending_effects callback v)%list.
Proof.
  unfold quiesce, pending_effects, advance.
  destruct (timer v) as [[due t] |]; [| now rewrite app_nil_r].
  destruct (Z.leb_spec due (Z.max due (clock v))); [reflexivity | lia].
Qed.

Lemma slow_typing (events : list (Z * string)) :
  forall v,
    due_by (fst (hd (clock v, "") events)) v \/ events = [] ->
    paused events ->
    each_changes (searchText v) events ->
    effects (quiesce callback (type_all callback events v)) =
    (effects v ++ pending_effects callback v
       ++ flat_map (fun e => callback (snd e)) events)%list.
Proof.
  induction events as [| [now text] rest IH]; intros v Hdue Hp Hch; cbn [type_all].
  - rewrite quiesce_pending. simpl. now rewrite app_nil_r.
  - destruct Hdue as [Hdue | Hnil]; [| discriminate]. cbn [hd fst] in Hdue.
    destruct Hch as [Hneq Hch].
    rewrite (change_after_due now text v Hdue Hneq).
    rewrite IH; cbn [effects searchText clock].
    + cbn [flat_map snd]. unfold pending_effects at 1. cbn [timer].
      now rewrite <- !app_assoc.
    + destruct rest as [| [t2 x2] rest']; [now right | left].
      cbn [hd fst]. unfold due_by. cbn [clock timer].
      destruct Hp as [Hp _]. unfold delay in *. lia.
    + destruct rest as [| [t2 x2] rest']; [exact I | apply Hp].
    + exact Hch.
Qed.

End ClosureFacts.

(** X16. When the events come in order of time, the pending timer always
    holds the text the view shows and is due within 300: a firing never
    acts on a text that has since been replaced. *)
Theorem timer_holds_current_text (callback : string -> list ViewEffect)
    (v : View) (events : list (Z * string)) :
  timer_current v ->
  chronological (clock v) events ->
  let v' := type_all callback events v in
  timer_current v' /\
  effects (quiesce callback v') =
  (effects v' ++ match timer v' with
                 | Some _ => callback (searchText v')
                 | None => []
                 end)%list.
Proof.
  intros Hv Hch v'.
  assert (Hc : timer_current v') by now apply typing_current.
  split; [exact Hc |].
  rewrite quiesce_pending. unfold pending_effects, timer_current in *.
  destruct (timer v') as [[due text] |]; [| reflexivity].
  now destruct Hc as [-> _].
Qed.

Lemma timer_holds_current_text_witness :
  let v := mount [ThenSetProjects SearchProjects.getAllProjects] in
  let events := [(100, "w"); (150, "we"); (700, "we"); (800, "web")] in
  timer_current v /\
  chronological (clock v) events /\
  timer_current (type_all SearchProjects.debounced events v).
Proof.
  cbv zeta.
  assert (H1 : timer_current (mount [ThenSetProjects SearchProjects.getAllProjects])).
  { unfold timer_current, mount, delay. cbn. split; [reflexivity | lia]. }
  assert (H2 : chronological
                 (clock (mount [ThenSetProjects SearchProjects.getAllProjects]))
                 [(100, "w"); (150, "we"); (700, "we"); (800, "web")]).
  { simpl. lia. }
  split; [exact H1 |]. split; [exact H2 |].
  exact (proj1 (timer_holds_current_text SearchProjects.debounced _ _ H1 H2)).
Defined.

(** X17. Slow typing: when every change comes once the timer before it has
    run out (300 or more after the change before), nothing is cancelled:
    the pending timer fires, then each change's own, in order. Left alone
    after mounting, the view therefore lists everything a second time. *)
Theorem slow_typing_fires_each (callback : string -> list ViewEffect)
    (v : View) (events : list (Z * string)) :
  due_by (fst (hd (clock v, "") events)) v \/ events = [] ->
  paused events ->
  each_changes (searchText v) events ->
  effects (quiesce callback (type_all callback events v)) =
  (effects v ++ pending_effects callback v
     ++ flat_map (fun e => callback (snd e)) events)%list.
Proof. intros. now apply slow_typing. Qed.

Lemma slow_typing_fires_each_witness :
  let v := mount [ThenSetProjects SearchProjects.getAllProjects] in
  let events := [(1000, "we"); (1300, "web")] in
  due_by 1000 v /\
  paused events /\
  each_changes "" events /\
  queries (effects (quiesce SearchProjects.debounced
                      (type_all SearchProjects.debounced events v)))
  = [SearchProjects.ask_all; SearchProjects.ask_all;
     SearchProjects.ask_search "we"; SearchProjects.ask_search "web"].
Proof.
  cbv zeta.
  assert (H1 : due_by 1000 (mount [ThenSetProjects SearchProjects.getAllProjects])).
  { unfold due_by, mount, delay. cbn. lia. }
  assert (H2 : paused [(1000, "we"); (1300, "web")]).
  { unfold delay. simpl. lia. }
  assert (H3 : each_changes "" [(1000, "we"); (1300, "web")]).
  { simpl. repeat split; discriminate. }
  split; [exact H1 |]. split; [exact H2 |]. split; [exact H3 |].
  rewrite (slow_typing_fires_each SearchProjects.debounced
             (mount [ThenSetProjects SearchProjects.getAllProjects])
             [(1000, "we"); (1300, "web")] (or_introl H1) H2 H3).
  reflexivity.
Defined.

(** ** The empty views *)

(** X18. The view renders at most one of its three empty views. With no
    record and nothing loading it renders exactly one; while loading it
    renders none, except the hint to type more, which shows exactly when the
    text has one character, loading or not, records or not. *)
Theorem empty_views_exclusive (searchText : string) (count : nat) (isLoading : bool) :
  let shown := empty_views searchText count isLoading in
  (List.length shown <= 1)%nat /\
  (In TypeMore shown <-> String.length searchText = 1%nat) /\
  (count = 0%nat -> isLoading = false -> List.length shown = 1%nat) /\
  (String.length searchText <> 1%nat -> (isLoading = true \/ count <> 0%nat) ->
   shown = []).
Proof.
  cbv zeta. unfold empty_views.
  destruct (String.length searchText) as [| [| n]]; destruct count as [| c];
    destruct isLoading; simpl; repeat split; intros;
    try lia; try tauto; try reflexivity; try discriminate;
    try (intuition (discriminate || lia)).
Qed.

Lemma empty_views_exclusive_witness :
  empty_views "w" 0 false = [TypeMore] /\
  empty_views "web" 0 false = [NoneFound] /\
  empty_views "" 0 false = [NoneAvailable] /\
  (In TypeMore (empty_views "w" 3 true) <-> String.length "w" = 1%nat).
Proof.
  split; [reflexivity |]. split; [reflexivity |]. split; [reflexivity |].
  exact (proj1 (proj2 (empty_views_exclusive "w" 3 true))).
Defined.
